(** * bdd_compose_util: readiness polling of composed containers

    A shallow embedding of [bddtests/steps/bdd_compose_util.py] and the
    properties of its container registry, readiness prober, peer convergence
    checker and deadline-bounded pollers.

    Python [str] values are modelled as [string] (byte strings, as in the
    Python 2 interpreter the test suite ran on); the outside world (docker,
    the peers' REST endpoints, the clock) is an explicit state threaded
    through every effectful function. *)

From Stdlib Require Import String Ascii List Bool Arith ZArith QArith Lia Lqa.
From Stdlib Require Import DecimalString Qround.
Import ListNotations.
Local Open Scope string_scope.
Local Open Scope list_scope.

Set Implicit Arguments.

(** ** Python string primitives *)

Module PyStr.

(** [len(s)] *)
Definition len (s : string) : nat := String.length s.

(** [s.startswith(p)] *)
Fixpoint startswith (p s : string) : bool :=
  match p with
  | EmptyString => true
  | String a p' =>
      match s with
      | EmptyString => false
      | String b s' => Ascii.eqb a b && startswith p' s'
      end
  end.

(** [s[n:]] *)
Fixpoint drop (n : nat) (s : string) : string :=
  match n with
  | O => s
  | S n' =>
      match s with
      | EmptyString => EmptyString
      | String _ s' => drop n' s'
      end
  end.

(** [s[:n]] *)
Fixpoint take (n : nat) (s : string) : string :=
  match n with
  | O => EmptyString
  | S n' =>
      match s with
      | EmptyString => EmptyString
      | String c s' => String c (take n' s')
      end
  end.

(** [s[a:-1]]: the characters from index [a] up to, and excluding, the last. *)
Definition slice_to_last (a : nat) (s : string) : string :=
  drop a (take (len s - 1) s).

(** [p in s] for strings: [p] occurs in [s] as a contiguous substring. *)
Fixpoint contains (p s : string) : bool :=
  startswith p s ||
  match s with
  | EmptyString => false
  | String _ s' => contains p s'
  end.

(** The whitespace of a byte string: space, and the controls 9 to 13. *)
Definition isspace (c : ascii) : bool :=
  let n := nat_of_ascii c in
  Nat.eqb n 32 || (Nat.leb 9 n && Nat.leb n 13).

(** [s.split()]: the maximal runs of non-whitespace characters.  [cur] is the
    token being read, kept only when it is not empty. *)
Definition flush (cur : string) (rest : list string) : list string :=
  match cur with
  | EmptyString => rest
  | _ => cur :: rest
  end.

Fixpoint split_from (cur s : string) : list string :=
  match s with
  | EmptyString => flush cur []
  | String c s' =>
      if isspace c then flush cur (split_from EmptyString s')
      else split_from (cur ++ String c EmptyString) s'
  end.

Definition split (s : string) : list string := split_from EmptyString s.

(** [s.splitlines()]: lines end at LF, CR or CR LF; the terminators are
    dropped and a terminator at the very end opens no further line. *)
Definition LF : ascii := ascii_of_nat 10.
Definition CR : ascii := ascii_of_nat 13.

Fixpoint splitlines_from (cur s : string) : list string :=
  match s with
  | EmptyString => flush cur []
  | String c s' =>
      if Ascii.eqb c LF then cur :: splitlines_from EmptyString s'
      else if Ascii.eqb c CR then
        match s' with
        | String d s'' =>
            if Ascii.eqb d LF then cur :: splitlines_from EmptyString s''
            else cur :: splitlines_from EmptyString s'
        | EmptyString => [cur]
        end
      else splitlines_from (cur ++ String c EmptyString) s'
  end.

Definition splitlines (s : string) : list string := splitlines_from EmptyString s.

(** [x in l] for a list of strings. *)
Definition mem (x : string) (l : list string) : bool :=
  existsb (String.eqb x) l.

End PyStr.

(** ** Regular expressions

    The two patterns the module hands to [re.search] use literals, one
    character class, alternation and [+].  They are written as abstract
    syntax over character predicates and matched with derivatives. *)

Module Re.

Inductive regex : Type :=
| Void : regex
| Eps : regex
| Atom (p : ascii -> bool) : regex
| Seq (r1 r2 : regex) : regex
| Alt (r1 r2 : regex) : regex
| Star (r : regex) : regex.

Definition Plus (r : regex) : regex := Seq r (Star r).

(** The language of a regex. *)
Inductive matches : regex -> string -> Prop :=
| m_eps : matches Eps EmptyString
| m_atom p c : p c = true -> matches (Atom p) (String c EmptyString)
| m_seq r1 r2 s1 s2 : matches r1 s1 -> matches r2 s2 -> matches (Seq r1 r2) (s1 ++ s2)
| m_alt_l r1 r2 s : matches r1 s -> matches (Alt r1 r2) s
| m_alt_r r1 r2 s : matches r2 s -> matches (Alt r1 r2) s
| m_star_nil r : matches (Star r) EmptyString
| m_star_cons r s1 s2 : matches r s1 -> matches (Star r) s2 -> matches (Star r) (s1 ++ s2).

Fixpoint nullable (r : regex) : bool :=
  match r with
  | Void => false
  | Eps => true
  | Atom _ => false
  | Seq r1 r2 => nullable r1 && nullable r2
  | Alt r1 r2 => nullable r1 || nullable r2
  | Star _ => true
  end.

Fixpoint deriv (c : ascii) (r : regex) : regex :=
  match r with
  | Void => Void
  | Eps => Void
  | Atom p => if p c then Eps else Void
  | Seq r1 r2 =>
      if nullable r1 then Alt (Seq (deriv c r1) r2) (deriv c r2)
      else Seq (deriv c r1) r2
  | Alt r1 r2 => Alt (deriv c r1) (deriv c r2)
  | Star r1 => Seq (deriv c r1) (Star r1)
  end.

(** Some prefix of [s] is in the language of [r]. *)
Fixpoint match_prefix (r : regex) (s : string) : bool :=
  nullable r ||
  match s with
  | EmptyString => false
  | String c s' => match_prefix (deriv c r) s'
  end.

(** [re.search(r, s)] as a truth value: a match starts at some position. *)
Fixpoint search (r : regex) (s : string) : bool :=
  match_prefix r s ||
  match s with
  | EmptyString => false
  | String _ s' => search r s'
  end.

(** ASCII lower-casing, for [re.IGNORECASE]. *)
Definition lower (c : ascii) : ascii :=
  let n := nat_of_ascii c in
  if Nat.leb 65 n && Nat.leb n 90 then ascii_of_nat (n + 32) else c.

(** A literal character, compared exactly or ignoring case. *)
Definition chr (ignorecase : bool) (a : ascii) : regex :=
  Atom (fun c => if ignorecase then Ascii.eqb (lower c) (lower a) else Ascii.eqb c a).

(** A literal string. *)
Fixpoint lit (ignorecase : bool) (s : string) : regex :=
  match s with
  | EmptyString => Eps
  | String a s' => Seq (chr ignorecase a) (lit ignorecase s')
  end.

(** The class [[0-9]]. *)
Definition isdigit (c : ascii) : bool :=
  let n := nat_of_ascii c in Nat.leb 48 n && Nat.leb n 57.

Definition digit : regex := Atom isdigit.

End Re.

(** ** Values exchanged with the outside world *)

(** Parsed JSON, as [response.json()] returns it; [JNull] is Python's
    [None]. *)
#[local] Unset Elimination Schemes.
Inductive JSON : Type :=
| JNull : JSON
| JBool (b : bool) : JSON
| JNum (n : Z) : JSON
| JStr (s : string) : JSON
| JArr (l : list JSON) : JSON
| JObj (fields : list (string * JSON)) : JSON.
#[local] Set Elimination Schemes.

(** What [requests.get] returns: the status code and the parsed body. *)
Record Response : Type := mkResponse {
  status_code : Z;
  json : JSON
}.

(** The exceptions the module can raise or let through. *)
Inductive exn : Type :=
| Exception (msg : string)
| AssertionError (msg : string)
| IndexError
| AttributeError (name : string)
| TypeError
| OverflowError
| OSError
| ValueError
| CommandFailed (argv : list string) (returncode : Z).

(** The outside world: a state, the collaborators that read and change it. *)
Record Environment : Type := mkEnvironment {
  World : Type;
  (** running an argument vector gives (stdout, stderr, exit code) *)
  run_command : list string -> World -> (string * string * Z) * World;
  (** [requests.get(url, headers=..., verify=False)] *)
  requests_get : string -> World -> Response * World;
  (** [time.time()], in seconds *)
  time_time : World -> Q;
  (** [time.sleep(seconds)] *)
  time_sleep : Q -> World -> World;
  (** [os.getcwd()] *)
  os_getcwd : World -> string;
  (** [a + b] on timestamps: the sum as the platform's floating point
      arithmetic rounds it, or the error raised when no finite float holds
      it *)
  float_add : Q -> Q -> exn + Q;
  (** [time.strftime(format, time.localtime(t))]: the formatted local time,
      or the error raised for a timestamp outside the range of the
      platform's time functions *)
  strftime_localtime : string -> Q -> exn + string
}.

(** The result of running a function of the module from a world: it
    returns a value in a new world, raises, or is still looping when the
    iteration budget given to the model has run out. *)
Inductive result (W A : Type) : Type :=
| Ret (a : A) (w : W)
| Raise (e : exn)
| OutOfFuel.

Arguments Ret {W A} a w.
Arguments Raise {W A} e.
Arguments OutOfFuel {W A}.

Definition M (W A : Type) : Type := W -> result W A.

Definition ret {W A} (a : A) : M W A := fun w => Ret a w.

Definition raise {W A} (e : exn) : M W A := fun _ => Raise e.

Definition bind {W A B} (m : M W A) (k : A -> M W B) : M W B :=
  fun w =>
    match m w with
    | Ret a w' => k a w'
    | Raise e => Raise e
    | OutOfFuel => OutOfFuel
    end.

Notation "x <- m ;; k" := (bind m (fun x => k))
  (at level 61, m at next level, right associativity).
Notation "' pat <- m ;; k" := (bind m (fun x => match x with pat => k end))
  (at level 61, pat pattern, m at next level, right associativity).

(** The value of a computation that does not touch the world, or its
    error. *)
Definition from_sum {W A} (r : exn + A) : M W A :=
  fun w =>
    match r with
    | inl e => Raise e
    | inr a => Ret a w
    end.

(** Lifting a collaborator that cannot fail. *)
Definition lift {W A} (f : W -> A * W) : M W A :=
  fun w => let (a, w') := f w in Ret a w'.

(** Reading the world without changing it. *)
Definition observe {W A} (f : W -> A) : M W A := fun w => Ret (f w) w.

(** [l[0]] *)
Definition first {W A} (l : list A) : M W A :=
  match l with
  | [] => raise IndexError
  | x :: _ => ret x
  end.

(** A [for] loop that builds a list by appending one element per item. *)
Fixpoint for_append {W A B} (f : A -> M W B) (l : list A) (acc : list B) : M W (list B) :=
  match l with
  | [] => ret acc
  | x :: l' => y <- f x ;; for_append f l' (acc ++ [y])
  end.

(** ** The module *)

(** [class ContainerData] *)
Record ContainerData : Type := mkContainerData {
  containerName : string;
  ipAddress : string;
  envFromInspect : list string;
  composeService : string
}.

(** The attributes of the test context that the module reads and sets; an
    attribute that was never set is [None]. *)
Record Context : Type := mkContext {
  compose_error : option string;
  compose_containers : option (list ContainerData)
}.

(** [os.path.basename]: what follows the last slash. *)
Fixpoint basename_from (cur p : string) : string :=
  match p with
  | EmptyString => cur
  | String c p' =>
      if Ascii.eqb c "/" then basename_from EmptyString p'
      else basename_from (cur ++ String c EmptyString) p'
  end.

Definition os_path_basename (p : string) : string := basename_from EmptyString p.

(** [str(n)] for an integer. *)
Definition str_of_Z (n : Z) : string := NilZero.string_of_int (Z.to_int n).

(** [len(x)] on a JSON value. *)
Definition py_len {W} (x : JSON) : M W nat :=
  match x with
  | JArr l => ret (length l)
  | JObj fields => ret (length fields)
  | JStr s => ret (String.length s)
  | JNull | JBool _ | JNum _ => raise TypeError
  end.

Fixpoint assoc (key : string) (fields : list (string * JSON)) : option JSON :=
  match fields with
  | [] => None
  | (k, v) :: rest => if String.eqb key k then Some v else assoc key rest
  end.

(** Modelled from the spec: [getAttributeFromJSON] of bdd_json_util is not
    among the sources.  It extracts the named field of the JSON body and
    fails with an explicit error, carrying the given message, when the field
    is structurally missing. *)
Definition getAttributeFromJSON {W} (attribute : string) (jsonObject : JSON) (msg : string)
  : M W JSON :=
  match jsonObject with
  | JObj fields =>
      match assoc attribute fields with
      | Some v => ret v
      | None => raise (AssertionError msg)
      end
  | _ => raise (AssertionError msg)
  end.

(** [ContainerData.getEnv]: the loop leaves [envValue] at [None] or at the
    remainder of the first entry that starts with [key]. *)
Fixpoint getEnv_scan (key : string) (vals : list string) : option string :=
  match vals with
  | [] => None
  | val :: rest =>
      if PyStr.startswith key val then Some (PyStr.drop (PyStr.len key) val)
      else getEnv_scan key rest
  end.

Definition getEnv_message (key name : string) : string :=
  ("ENV key not found (" ++ key ++ ") for container (" ++ name ++ ")")%string.

Definition getEnv {W} (self : ContainerData) (key : string) : M W string :=
  match getEnv_scan key (envFromInspect self) with
  | None => raise (Exception (getEnv_message key (containerName self)))
  | Some envValue => ret envValue
  end.

(** [ContainerData.__str__] and [ContainerData.__repr__] *)
Definition ContainerData_str (self : ContainerData) : string :=
  (containerName self ++ " - " ++ ipAddress self)%string.

Definition ContainerData_repr (self : ContainerData) : string :=
  ContainerData_str self.

(** [getDockerComposeFileArgsFromYamlFile] *)
Definition getDockerComposeFileArgsFromYamlFile (compose_yaml : string) : list string :=
  fold_left (fun args part => args ++ ["-f"] ++ [part]) (PyStr.split compose_yaml) [].

(** The body of the first loop of [parseComposeOutput]: one line of the
    compose output, [containerNames] being the names collected so far. *)
Definition addContainerName (containerNamePrefix : string)
    (containerNames : list string) (l : string) : list string :=
  match PyStr.split l with
  | _ :: thisContainer :: _ =>
      let thisContainer :=
        if PyStr.contains containerNamePrefix thisContainer then thisContainer
        else (containerNamePrefix ++ thisContainer ++ "_1")%string in
      if PyStr.mem thisContainer containerNames then containerNames
      else containerNames ++ [thisContainer]
  | _ => containerNames
  end.

Definition collectContainerNames (containerNamePrefix compose_output : string) : list string :=
  fold_left (addContainerName containerNamePrefix) (PyStr.splitlines compose_output) [].

(** [re.search("vp[0-9]+", name, re.IGNORECASE)] *)
Definition peer_pattern : Re.regex :=
  Re.Seq (Re.lit true "vp") (Re.Plus Re.digit).

(** [re.search("ESTABLISHED|LISTEN", line)] *)
Definition socket_pattern : Re.regex :=
  Re.Alt (Re.lit false "ESTABLISHED") (Re.lit false "LISTEN").

Definition containerIsPeer (container : ContainerData) : bool :=
  Re.search peer_pattern (containerName container).

Definition getPeerContainers (containers : list ContainerData) : list ContainerData :=
  filter containerIsPeer containers.

Section Compose.

Variable E : Environment.

(** From bdd_rest_util, not among the sources: the REST port of a peer and
    the builder of the URL of one of its endpoints. *)
Variable CORE_REST_PORT : Z.
Variable buildUrl : Context -> string -> string -> string.

Abbreviation W := (World E).

(** Modelled from the spec: [cli_call] of bdd_test_util is not among the
    sources.  It runs the argument vector and returns (stdout, stderr, exit
    code); with the expect-success flag a non-zero exit code raises an
    error, without it the code is returned to the caller. *)
Definition cli_call (argv : list string) (expect_success : bool) : M W (string * string * Z) :=
  fun w =>
    let '(stdout, stderr, returncode, w') := run_command E argv w in
    if expect_success && negb (Z.eqb returncode 0)
    then Raise (CommandFailed argv returncode)
    else Ret (stdout, stderr, returncode) w'.

Definition docker_inspect (format containerName : string) : M W string :=
  '(output, _, _) <- cli_call ["docker"; "inspect"; "--format"; format; containerName] true ;;
  ret output.

(** The body of the second loop of [parseComposeOutput]. *)
Definition inspectContainer (containerName : string) : M W ContainerData :=
  output <- docker_inspect "{{ .NetworkSettings.IPAddress }}" containerName ;;
  ipAddress <- first (PyStr.splitlines output) ;;
  output <- docker_inspect "{{ .Config.Env }}" containerName ;;
  line <- first (PyStr.splitlines output) ;;
  let env := PyStr.split (PyStr.slice_to_last 1 line) in
  output <- docker_inspect "{{ .Config.Labels }}" containerName ;;
  line <- first (PyStr.splitlines output) ;;
  let labels := PyStr.split (PyStr.slice_to_last 4 line) in
  dockerComposeService <-
    first (map (PyStr.drop 27)
               (filter (PyStr.startswith "com.docker.compose.service:") labels)) ;;
  ret (mkContainerData containerName ipAddress env dockerComposeService).

Definition parseComposeOutput (context : Context) : M W Context :=
  cwd <- observe (os_getcwd E) ;;
  let containerNamePrefix := (os_path_basename cwd ++ "_")%string in
  output <- match compose_error context with
            | Some s => ret s
            | None => raise (AttributeError "compose_error")
            end ;;
  let containerNames := collectContainerNames containerNamePrefix output in
  containerDataList <- for_append inspectContainer containerNames [] ;;
  let newContainerDataList :=
    match compose_containers context with
    | Some existing => existing
    | None => []
    end in
  let newContainerDataList := newContainerDataList ++ containerDataList in
  ret (mkContext (compose_error context) (Some newContainerDataList)).

Definition timestampExceeded (timeoutTimestamp : Q) : M W bool :=
  now <- observe (time_time E) ;;
  ret (negb (Qle_bool now timeoutTimestamp)).

Definition sleep (seconds : Q) : M W unit :=
  fun w => Ret tt (time_sleep E seconds w).

Definition getContainerNetstatOutput (containerName : string) : M W string :=
  '(stdout, _, _) <- cli_call ["docker"; "exec"; containerName; "netstat"; "-atun"] false ;;
  ret stdout.

Definition tcpPortsAreReady (container : ContainerData) : M W bool :=
  netstatOutput <- getContainerNetstatOutput (containerName container) ;;
  ret (existsb (Re.search socket_pattern) (PyStr.splitlines netstatOutput)).

Definition restPortRespondsIfContainerIsPeer (container : ContainerData) : M W bool :=
  let containerName := containerName container in
  let command :=
    ["docker"; "exec"; containerName; "curl";
     ("localhost:" ++ str_of_Z CORE_REST_PORT)%string] in
  if containerIsPeer container then
    '(_, _, returnCode) <- cli_call command false ;;
    ret (Z.eqb returnCode 0)
  else ret true.

Definition containerIsInitialized (container : ContainerData) : M W bool :=
  isReady <- tcpPortsAreReady container ;;
  if isReady then restPortRespondsIfContainerIsPeer container else ret false.

Definition containerIsNotInitialized (container : ContainerData) : M W bool :=
  b <- containerIsInitialized container ;; ret (negb b).

(** The [while] loop runs at most [fuel] evaluations of its condition. *)
Fixpoint containerIsInitializedByTimestamp (fuel : nat) (container : ContainerData)
    (timeoutTimestamp : Q) : M W bool :=
  match fuel with
  | O => fun _ => OutOfFuel
  | S fuel' =>
      notInitialized <- containerIsNotInitialized container ;;
      if notInitialized then
        exceeded <- timestampExceeded timeoutTimestamp ;;
        if exceeded then ret false
        else
          _ <- sleep 1 ;;
          containerIsInitializedByTimestamp fuel' container timeoutTimestamp
      else ret true
  end.

Definition getConnectedPeersFromPeer (context : Context) (thisPeer : ContainerData) : M W JSON :=
  let url := buildUrl context (ipAddress thisPeer) "/network/peers" in
  response <- lift (requests_get E url) ;;
  if negb (Z.eqb (status_code response) 200) then ret JNull
  else getAttributeFromJSON "peers" (json response) "There should be a peer json attribute".

Definition peerIsReady (context : Context) (thisPeer : ContainerData)
    (allPeers : list ContainerData) : M W bool :=
  connectedPeers <- getConnectedPeersFromPeer context thisPeer ;;
  match connectedPeers with
  | JNull => ret false
  | _ =>
      let numPeers := length allPeers in
      numConnectedPeers <- py_len connectedPeers ;;
      ret (Nat.eqb numPeers numConnectedPeers)
  end.

Definition peerIsNotReady (context : Context) (thisPeer : ContainerData)
    (allPeers : list ContainerData) : M W bool :=
  b <- peerIsReady context thisPeer allPeers ;; ret (negb b).

Fixpoint peerIsReadyByTimestamp (fuel : nat) (context : Context)
    (peerContainer : ContainerData) (allPeerContainers : list ContainerData)
    (timeoutTimestamp : Q) : M W bool :=
  match fuel with
  | O => fun _ => OutOfFuel
  | S fuel' =>
      notReady <- peerIsNotReady context peerContainer allPeerContainers ;;
      if notReady then
        exceeded <- timestampExceeded timeoutTimestamp ;;
        if exceeded then ret false
        else
          _ <- sleep 1 ;;
          peerIsReadyByTimestamp fuel' context peerContainer allPeerContainers
            timeoutTimestamp
      else ret true
  end.

(** A [for] loop that returns [False] at the first item whose check fails
    and [True] when it runs to its end. *)
Fixpoint for_all_checks {A} (check : A -> M W bool) (l : list A) : M W bool :=
  match l with
  | [] => ret true
  | x :: l' =>
      ok <- check x ;;
      if ok then for_all_checks check l' else ret false
  end.

Definition peersAreReadyByTimestamp (fuel : nat) (context : Context)
    (containers : list ContainerData) (timeoutTimestamp : Q) : M W bool :=
  let peers := getPeerContainers containers in
  for_all_checks
    (fun peer => peerIsReadyByTimestamp fuel context peer peers timeoutTimestamp) peers.

Definition allContainersAreReadyWithinTimeout (fuel : nat) (context : Context)
    (timeout : Q) : M W bool :=
  now <- observe (time_time E) ;;
  timeoutTimestamp <- from_sum (float_add E now timeout) ;;
  formattedTime <- from_sum (strftime_localtime E "%X" timeoutTimestamp) ;;
  allContainers <- match compose_containers context with
                   | Some l => ret l
                   | None => raise (AttributeError "compose_containers")
                   end ;;
  containersAreReady <-
    for_all_checks
      (fun container => containerIsInitializedByTimestamp fuel container timeoutTimestamp)
      allContainers ;;
  if containersAreReady
  then peersAreReadyByTimestamp fuel context allContainers timeoutTimestamp
  else ret false.

End Compose.

(** ** A simulated world

    The world is the number of seconds since the start of the session;
    commands and requests answer from tables that may depend on the time
    and take no time themselves, sleeping advances the clock.  Sums of
    timestamps are exact, and the local time of a timestamp can be formatted
    when it lies within 2^55 seconds of the epoch. *)

Module Sim.

Definition env (cmd : list string -> nat -> string * string * Z)
    (http : string -> nat -> Response) (cwd : string) : Environment :=
  {| World := nat;
     run_command := fun argv w => (cmd argv w, w);
     requests_get := fun url w => (http url w, w);
     time_time := fun w => inject_Z (Z.of_nat w);
     time_sleep := fun s w => (w + Z.to_nat (Qceiling s))%nat;
     os_getcwd := fun _ => cwd;
     float_add := fun a b => inr (a + b)%Q;
     strftime_localtime := fun _ t =>
       if Qle_bool (- inject_Z (2 ^ 55)) t && Qle_bool t (inject_Z (2 ^ 55))
       then inr "12:00:00" else inl OverflowError |}.

Definition nl : string := String PyStr.LF EmptyString.

(** docker in a session of two peers and one membership service; the
    containers listen, and answer on the REST port, from [ready_at] on. *)
Definition docker (ready_at : nat) (argv : list string) (now : nat) : string * string * Z :=
  match argv with
  | ["docker"; "inspect"; "--format"; format; name] =>
      if String.eqb format "{{ .NetworkSettings.IPAddress }}" then
        (("172.17.0.2" ++ nl)%string, "", 0%Z)
      else if String.eqb format "{{ .Config.Env }}" then
        (("[CORE_PEER_ID=" ++ name ++ " CORE_PEER_IDENTITY=x PATH=/bin]" ++ nl)%string, "", 0%Z)
      else
        (("map[com.docker.compose.project:net com.docker.compose.service:"
           ++ name ++ "]" ++ nl)%string, "", 0%Z)
  | ["docker"; "exec"; name; "netstat"; "-atun"] =>
      if Nat.leb ready_at now then
        (("Proto Local Address Foreign Address State" ++ nl ++
          "tcp 0 0 0.0.0.0:7050 0.0.0.0:* LISTEN" ++ nl)%string, "", 0%Z)
      else (("Proto Local Address Foreign Address State" ++ nl)%string, "", 0%Z)
  | ["docker"; "exec"; name; "curl"; _] =>
      if Nat.leb ready_at now then ("ok", "", 0%Z) else ("", "refused", 7%Z)
  | _ => ("", "no such command", 127%Z)
  end.

(** A peer endpoint that answers 500 until [up_at], then lists [n] peers. *)
Definition peers_endpoint (up_at n : nat) (url : string) (now : nat) : Response :=
  if Nat.leb up_at now
  then mkResponse 200 (JObj [("peers", JArr (repeat (JObj []) n))])
  else mkResponse 500 JNull.

Definition url (_ : Context) (ip path : string) : string :=
  ("http://" ++ ip ++ ":7050" ++ path)%string.

Definition compose_output : string :=
  ("Creating net_vp0_1 ... done" ++ nl ++
   "Creating net_vp1_1 ... done" ++ nl ++
   "Creating membersrvc ... " ++ nl ++
   "done" ++ nl ++
   "Creating net_vp0_1 ... done" ++ nl)%string.

Definition session : Context := mkContext (Some compose_output) None.

(** Everything is up from the start. *)
Definition E : Environment := env (docker 0) (peers_endpoint 0 2) "/opt/gopath/src/net".


(** The docker daemon cannot be reached. *)
Definition docker_down (argv : list string) (now : nat) : string * string * Z :=
  ("", "Cannot connect to the Docker daemon", 1%Z).

Definition E_down : Environment :=
  env docker_down (peers_endpoint 0 2) "/opt/gopath/src/net".

(** The containers were not started by compose: they carry no service
    label. *)
Definition docker_unlabelled (argv : list string) (now : nat) : string * string * Z :=
  match argv with
  | ["docker"; "inspect"; "--format"; "{{ .Config.Labels }}"; name] =>
      (("map[com.example.role:db]" ++ nl)%string, "", 0%Z)
  | _ => docker 0 argv now
  end.

Definition E_unlabelled : Environment :=
  env docker_unlabelled (peers_endpoint 0 2) "/opt/gopath/src/net".

(** A peer endpoint that answers 200 without the peers field. *)
Definition E_no_peers_field : Environment :=
  env (docker 0) (fun _ _ => mkResponse 200 (JObj [("message", JStr "starting")]))
    "/opt/gopath/src/net".

(** Nothing ever comes up. *)
Definition E_never : Environment :=
  env (fun _ _ => ("", "", 1%Z)) (peers_endpoint 0 2) "/opt/gopath/src/net".


(** A registry of one peer and one membership service. *)
Definition vp0 : ContainerData :=
  mkContainerData "net_vp0_1" "172.17.0.2" ["CORE_PEER_ID=vp0"] "vp0".

Definition membersrvc : ContainerData :=
  mkContainerData "net_membersrvc_1" "172.17.0.3" ["PATH=/bin"] "membersrvc".

Definition registered : Context := mkContext None (Some [vp0; membersrvc]).

(** The context after the compose output was parsed. *)
Definition parsed : Context :=
  match parseComposeOutput E session 0%nat with
  | Ret context _ => context
  | _ => session
  end.

End Sim.

(** ** Test sessions *)

(** The registry held by a context: empty until the first merge. *)
Definition registry (context : Context) : list ContainerData :=
  match compose_containers context with
  | Some l => l
  | None => []
  end.

Definition registry_names (context : Context) : list string :=
  map containerName (registry context).


(** ** Vocabulary of the properties *)

(** The field [name] of a JSON body, when the body is an object that has
    it. *)
Definition json_field (name : string) (body : JSON) : option JSON :=
  match body with
  | JObj fields => assoc name fields
  | _ => None
  end.

(** The claim as the spec words it: the lookup raises exactly when no entry
    of the form KEY=VALUE carries the key. *)
Definition env_has_key (key : string) (env : list string) : Prop :=
  exists value, In (key ++ "=" ++ value)%string env.

Definition getEnv_raises_iff_key_absent (self : ContainerData) (key : string) : Prop :=
  (exists msg, getEnv self key tt = Raise (Exception msg)) <->
  ~ env_has_key key (envFromInspect self).

(** The name a token stands for. *)
Definition normalized (containerNamePrefix thisContainer : string) : string :=
  if PyStr.contains containerNamePrefix thisContainer then thisContainer
  else (containerNamePrefix ++ thisContainer ++ "_1")%string.

(** What one line of the output contributes. *)
Definition names_of_line (containerNamePrefix l : string) (name : string) : Prop :=
  exists token0 thisContainer tokens,
    PyStr.split l = token0 :: thisContainer :: tokens
    /\ name = normalized containerNamePrefix thisContainer.


(** What the environment is assumed to do with the clock: it never runs
    backwards while a command or a request is served, and sleeping takes at
    least the time asked for. *)
Record clock_advances (E : Environment) : Prop := {
  run_command_clock : forall argv w,
      (time_time E w <= time_time E (snd (run_command E argv w)))%Q;
  requests_get_clock : forall url w,
      (time_time E w <= time_time E (snd (requests_get E url w)))%Q;
  time_sleep_clock : forall seconds w,
      (time_time E w + seconds <= time_time E (time_sleep E seconds w))%Q
}.

Section Polling.

Variable E : Environment.

(** The shape shared by the two [while] loops: evaluate the check; when it
    fails, give up if the deadline has passed, else sleep a second and
    start over. *)
Fixpoint poll (fuel : nat) (check : M (World E) bool) (deadline : Q) : M (World E) bool :=
  match fuel with
  | O => fun _ => OutOfFuel
  | S fuel' =>
      notReady <- (b <- check ;; ret (negb b)) ;;
      if notReady then
        exceeded <- timestampExceeded E deadline ;;
        if exceeded then ret false
        else
          _ <- sleep E 1 ;;
          poll fuel' check deadline
      else ret true
  end.





End Polling.


(** The claim as the spec words it: a second token that does not begin with
    the project prefix is normalized to prefix, underscore, token, _1. *)
Definition token_lacking_prefix_normalized (project l : string) : Prop :=
  forall token0 thisContainer tokens,
    PyStr.split l = token0 :: thisContainer :: tokens ->
    PyStr.startswith project thisContainer = false ->
    addContainerName (project ++ "_") [] l
    = [(project ++ "_" ++ thisContainer ++ "_1")%string].

(** A list without its repetitions: of each element the first occurrence is
    kept, in its place. *)
Fixpoint first_occurrences (l : list string) : list string :=
  match l with
  | [] => []
  | x :: l' => x :: filter (fun y => negb (String.eqb y x)) (first_occurrences l')
  end.

(** The names that the lines of a compose output stand for, line after
    line: the normalized second token of each line that has one. *)
Definition names_in_line_order (containerNamePrefix output : string) : list string :=
  flat_map
    (fun l =>
       match PyStr.split l with
       | _ :: thisContainer :: _ =>
           [if PyStr.contains containerNamePrefix thisContainer then thisContainer
            else (containerNamePrefix ++ thisContainer ++ "_1")%string]
       | _ => []
       end)
    (PyStr.splitlines output).

(** Every character of a string passes a test. *)
Fixpoint all_chars (p : ascii -> bool) (s : string) : bool :=
  match s with
  | EmptyString => true
  | String c s' => p c && all_chars p s'
  end.

(** A token: not empty, and free of whitespace. *)
Definition is_token (s : string) : Prop :=
  s <> EmptyString /\ all_chars (fun c => negb (PyStr.isspace c)) s = true.

(** A string with its ASCII capitals turned to small letters. *)
Fixpoint lower_string (s : string) : string :=
  match s with
  | EmptyString => EmptyString
  | String c s' => String (Re.lower c) (lower_string s')
  end.

(** A regex that cannot tell a letter from its other case. *)
Fixpoint case_blind (r : Re.regex) : Prop :=
  match r with
  | Re.Void | Re.Eps => True
  | Re.Atom p => forall c, p (Re.lower c) = p c
  | Re.Seq r1 r2 | Re.Alt r1 r2 => case_blind r1 /\ case_blind r2
  | Re.Star r1 => case_blind r1
  end.

(** * Properties *)

(** ** Strings: the primitives on sample inputs *)

Example split_compose_line :
  PyStr.split "  Creating  net_vp0_1 ...  done " = ["Creating"; "net_vp0_1"; "..."; "done"].
Proof. reflexivity. Qed.

Example splitlines_terminators :
  PyStr.splitlines
    ("ab" ++ String PyStr.LF "cd" ++ String PyStr.CR (String PyStr.LF (String PyStr.LF "e"))
     ++ String PyStr.CR "")%string
  = ["ab"; "cd"; ""; "e"].
Proof. reflexivity. Qed.

Example slice_inspect_output :
  PyStr.slice_to_last 1 "[A=1 B=2]" = "A=1 B=2"
  /\ PyStr.slice_to_last 4 "map[a:b c:d]" = "a:b c:d"
  /\ PyStr.slice_to_last 1 "a" = "".
Proof. repeat split; reflexivity. Qed.

(** ** Regular expressions: the matcher decides the language *)

Module ReFacts.
Import Re.

Lemma append_empty_inv (s1 s2 : string) :
  (s1 ++ s2)%string = EmptyString -> s1 = EmptyString /\ s2 = EmptyString.
Proof.
  destruct s1; simpl; intros H; [split; [reflexivity | exact H] | discriminate].
Qed.

Lemma append_cons_inv (s1 s2 : string) (c : ascii) (s : string) :
  (s1 ++ s2)%string = String c s ->
  (s1 = EmptyString /\ s2 = String c s) \/
  (exists s1', s1 = String c s1' /\ s = (s1' ++ s2)%string).
Proof.
  destruct s1 as [|a s1']; simpl; intros H.
  - left; split; [reflexivity | exact H].
  - right; injection H as -> <-. exists s1'; split; reflexivity.
Qed.

Lemma append_assoc (a b c : string) :
  ((a ++ b) ++ c)%string = (a ++ (b ++ c))%string.
Proof. induction a; simpl; [reflexivity | now rewrite IHa]. Qed.

Lemma append_empty_r (a : string) : (a ++ EmptyString)%string = a.
Proof. induction a; simpl; [reflexivity | now rewrite IHa]. Qed.

Lemma nullable_matches (r : regex) : nullable r = true -> matches r EmptyString.
Proof.
  induction r; simpl; intros H; try discriminate.
  - constructor.
  - apply andb_true_iff in H as [H1 H2].
    change EmptyString with (EmptyString ++ EmptyString)%string.
    constructor; auto.
  - apply orb_true_iff in H as [H | H]; [apply m_alt_l | apply m_alt_r]; auto.
  - constructor.
Qed.

Lemma matches_nullable (r : regex) (s : string) :
  matches r s -> s = EmptyString -> nullable r = true.
Proof.
  induction 1; simpl; intros Hs; try reflexivity; try discriminate.
  - apply append_empty_inv in Hs as [-> ->]. rewrite IHmatches1, IHmatches2; auto.
  - rewrite IHmatches; auto.
  - rewrite IHmatches; auto using orb_true_r.
Qed.

Lemma nullable_spec (r : regex) : nullable r = true <-> matches r EmptyString.
Proof.
  split; [apply nullable_matches | intros H; eapply matches_nullable; eauto].
Qed.

Lemma deriv_sound (c : ascii) (r : regex) :
  forall s, matches (deriv c r) s -> matches r (String c s).
Proof.
  induction r; simpl; intros s H.
  - inversion H.
  - inversion H.
  - destruct (p c) eqn:Hp; inversion H; subst. now constructor.
  - destruct (nullable r1) eqn:Hn.
    + inversion H; subst.
      * match goal with Hs : matches (Seq _ _) _ |- _ => inversion Hs; subst end.
        change (String c (?a ++ ?b))%string with (String c a ++ b)%string.
        constructor; auto.
      * change (String c s) with (EmptyString ++ String c s)%string.
        constructor; auto using nullable_matches.
    + inversion H; subst.
      change (String c (?a ++ ?b))%string with (String c a ++ b)%string.
      constructor; auto.
  - inversion H; subst; [apply m_alt_l | apply m_alt_r]; auto.
  - inversion H; subst.
    change (String c (?a ++ ?b))%string with (String c a ++ b)%string.
    constructor; auto.
Qed.

Lemma deriv_complete (c : ascii) (r : regex) (s0 : string) :
  matches r s0 -> forall t, s0 = String c t -> matches (deriv c r) t.
Proof.
  induction 1; intros t Ht; simpl.
  - discriminate.
  - injection Ht as -> <-. rewrite H. constructor.
  - apply append_cons_inv in Ht as [[-> ->] | [s1' [-> ->]]].
    + rewrite (matches_nullable H eq_refl). apply m_alt_r. auto.
    + destruct (nullable r1); [apply m_alt_l |]; constructor; auto.
  - apply m_alt_l; auto.
  - apply m_alt_r; auto.
  - discriminate.
  - apply append_cons_inv in Ht as [[-> ->] | [s1' [-> ->]]].
    + apply (IHmatches2 t eq_refl).
    + constructor; auto.
Qed.

Lemma deriv_spec (c : ascii) (r : regex) (s : string) :
  matches (deriv c r) s <-> matches r (String c s).
Proof.
  split; [apply deriv_sound | intros H; eapply deriv_complete; eauto].
Qed.

(** [match_prefix] finds exactly the strings with a prefix in the language. *)
Lemma match_prefix_spec (s : string) :
  forall r, match_prefix r s = true <->
            exists p q, s = (p ++ q)%string /\ matches r p.
Proof.
  induction s as [|c s IH]; intros r; simpl.
  - rewrite orb_false_r, nullable_spec. split.
    + intros H. exists EmptyString, EmptyString. auto.
    + intros (p & q & Hs & Hm). symmetry in Hs.
      apply append_empty_inv in Hs as [-> _]. exact Hm.
  - rewrite orb_true_iff, nullable_spec, IH. split.
    + intros [H | (p & q & -> & Hm)].
      * exists EmptyString, (String c s). auto.
      * exists (String c p), q. split; [reflexivity | now apply deriv_spec].
    + intros (p & q & Hs & Hm). symmetry in Hs.
      apply append_cons_inv in Hs as [[-> _] | [p' [-> ->]]].
      * now left.
      * right. exists p', q. split; [reflexivity | now apply deriv_spec].
Qed.

(** [search] finds exactly the strings with a factor in the language. *)
Lemma search_spec (r : regex) (s : string) :
  search r s = true <->
  exists a p q, s = (a ++ p ++ q)%string /\ matches r p.
Proof.
  induction s as [|c s IH]; cbn [search].
  - rewrite orb_false_r, match_prefix_spec. split.
    + intros (p & q & Hs & Hm). exists EmptyString, p, q. auto.
    + intros (a & p & q & Hs & Hm). symmetry in Hs.
      apply append_empty_inv in Hs as [-> Hs]. exists p, q. auto.
  - rewrite orb_true_iff, match_prefix_spec, IH. split.
    + intros [(p & q & Hs & Hm) | (a & p & q & -> & Hm)].
      * exists EmptyString, p, q. auto.
      * exists (String c a), p, q. auto.
    + intros (a & p & q & Hs & Hm). destruct a as [|c' a]; simpl in Hs.
      * left. exists p, q. auto.
      * right. injection Hs as <- ->. exists a, p, q. auto.
Qed.

(** The language of a literal. *)
Lemma matches_lit_exact (s m : string) : matches (lit false s) m <-> m = s.
Proof.
  revert m. induction s as [|a s IH]; intros m; simpl.
  - split; [intros H; now inversion H | intros ->; constructor].
  - split.
    + intros H. inversion H; subst.
      match goal with Ha : matches (chr _ _) _ |- _ => inversion Ha; subst end.
      match goal with Hc : Ascii.eqb _ _ = true |- _ => apply Ascii.eqb_eq in Hc; subst end.
      simpl. f_equal. now apply IH.
    + intros ->. change (String a s) with (String a EmptyString ++ s)%string.
      constructor; [constructor; apply Ascii.eqb_refl | now apply IH].
Qed.

(** A factor [p] of [s], decided by [PyStr.contains]. *)
Lemma startswith_spec (p s : string) :
  PyStr.startswith p s = true <-> exists q, s = (p ++ q)%string.
Proof.
  revert s. induction p as [|a p IH]; intros s; simpl.
  - split; [intros _; now exists s | reflexivity].
  - destruct s as [|b s].
    + split; [discriminate | intros [q Hq]; discriminate].
    + rewrite andb_true_iff, Ascii.eqb_eq, IH. split.
      * intros [-> [q ->]]. now exists q.
      * intros [q Hq]. injection Hq as -> ->. split; [reflexivity | now exists q].
Qed.

Lemma contains_spec (p s : string) :
  PyStr.contains p s = true <-> exists a q, s = (a ++ p ++ q)%string.
Proof.
  induction s as [|c s IH]; simpl.
  - rewrite orb_false_r, startswith_spec. split.
    + intros [q Hq]. now exists EmptyString, q.
    + intros (a & q & Hs). symmetry in Hs.
      apply append_empty_inv in Hs as [-> Hs]. now exists q.
  - rewrite orb_true_iff, startswith_spec, IH. split.
    + intros [[q Hq] | (a & q & ->)].
      * now exists EmptyString, q.
      * now exists (String c a), q.
    + intros (a & q & Hs). destruct a as [|c' a]; simpl in Hs.
      * left. now exists q.
      * right. injection Hs as <- ->. now exists a, q.
Qed.

(** Searching for a literal is the substring test. *)
Lemma search_lit (p s : string) :
  search (lit false p) s = PyStr.contains p s.
Proof.
  apply eq_true_iff_eq. rewrite search_spec, contains_spec. split.
  - intros (a & m & q & Hs & Hm). apply matches_lit_exact in Hm as ->. eauto.
  - intros (a & q & Hs). exists a, p, q. split; [exact Hs | now apply matches_lit_exact].
Qed.

Lemma search_alt (r1 r2 : regex) (s : string) :
  search (Alt r1 r2) s = search r1 s || search r2 s.
Proof.
  apply eq_true_iff_eq. rewrite orb_true_iff, !search_spec. split.
  - intros (a & m & q & Hs & Hm). inversion Hm; subst; [left | right]; eauto.
  - intros [(a & m & q & Hs & Hm) | (a & m & q & Hs & Hm)];
      exists a, m, q; split; auto using m_alt_l, m_alt_r.
Qed.

End ReFacts.

(** ** Environment lookup *)

Section GetEnv.

Variable W : Type.

Lemma getEnv_scan_find (key : string) (vals : list string) :
  getEnv_scan key vals =
  option_map (PyStr.drop (PyStr.len key)) (find (PyStr.startswith key) vals).
Proof.
  induction vals as [|val rest IH]; simpl; [reflexivity |].
  destruct (PyStr.startswith key val); [reflexivity | exact IH].
Qed.

Lemma startswith_drop (key val : string) :
  PyStr.startswith key val = true ->
  val = (key ++ PyStr.drop (PyStr.len key) val)%string.
Proof.
  revert val. induction key as [|a key IH]; intros val; simpl; [reflexivity |].
  destruct val as [|b val]; [discriminate |].
  intros H. apply andb_true_iff in H as [Hab H]. apply Ascii.eqb_eq in Hab as ->.
  f_equal. now apply IH.
Qed.

Lemma find_none_existsb (f : string -> bool) (l : list string) :
  find f l = None <-> existsb f l = false.
Proof.
  induction l as [|x l IH]; simpl; [tauto |].
  destruct (f x); simpl; [split; discriminate | exact IH].
Qed.


(** C6, as stated, fails: the key FOO is absent from an environment whose
    only entry is FOOBAR=x, yet the lookup raises nothing and returns
    BAR=x. *)
Lemma getEnv_absent_key_not_raised :
  ~ getEnv_raises_iff_key_absent (mkContainerData "net_vp0_1" "172.17.0.2" ["FOOBAR=x"] "vp0") "FOO".
Proof.
  unfold getEnv_raises_iff_key_absent. intros [_ H].
  destruct H as [msg Hmsg]; [| discriminate Hmsg].
  intros [value [Hin | []]]. discriminate Hin.
Qed.

(** C6, amended: the lookup raises the error that names the key and the
    container exactly when no entry of the environment list starts with the
    key string; otherwise it returns the remainder of an entry of the list,
    never a default. *)
Theorem getEnv_raises_iff_no_entry_starts_with_key
    (self : ContainerData) (key : string) (w : W) :
  (getEnv self key w =
     Raise (Exception ("ENV key not found (" ++ key ++ ") for container ("
                         ++ containerName self ++ ")")%string)
   <-> existsb (PyStr.startswith key) (envFromInspect self) = false)
  /\
  (existsb (PyStr.startswith key) (envFromInspect self) = true
   <-> exists envValue, getEnv self key w = Ret envValue w
                        /\ In (key ++ envValue)%string (envFromInspect self)).
Proof.
  unfold getEnv, getEnv_message. rewrite getEnv_scan_find.
  destruct (find (PyStr.startswith key) (envFromInspect self)) as [e|] eqn:Hf; simpl.
  - apply find_some in Hf as [Hin He].
    assert (Hex : existsb (PyStr.startswith key) (envFromInspect self) = true)
      by (apply existsb_exists; eauto).
    rewrite Hex. split; split; try discriminate.
    + intros _. exists (PyStr.drop (PyStr.len key) e). split; [reflexivity |].
      now rewrite <- startswith_drop.
    + reflexivity.
  - apply find_none_existsb in Hf. rewrite Hf. split; split; try discriminate; auto.
    intros [v [Hv _]]. discriminate Hv.
Qed.

(** C10: the lookup matches the key as a prefix of the entries: it returns
    the first entry, in list order, that starts with the key, with its first
    len(key) characters removed; so FOO matches FOOBAR=x and K on K=v gives
    =v, equals sign included. *)
Theorem getEnv_matches_key_as_prefix (self : ContainerData) (key : string) (w : W) :
  match find (PyStr.startswith key) (envFromInspect self) with
  | Some entry =>
      getEnv self key w = Ret (PyStr.drop (PyStr.len key) entry) w
      /\ entry = (key ++ PyStr.drop (PyStr.len key) entry)%string
  | None => exists msg, getEnv self key w = Raise (Exception msg)
  end
  /\ getEnv (mkContainerData "c" "10.0.0.1" ["PATH=/bin"; "FOOBAR=x"; "FOO=y"] "s") "FOO" w
     = Ret "BAR=x" w
  /\ getEnv (mkContainerData "c" "10.0.0.1" ["K=v"] "s") "K" w = Ret "=v" w.
Proof.
  split; [| split; reflexivity].
  unfold getEnv. rewrite getEnv_scan_find.
  destruct (find (PyStr.startswith key) (envFromInspect self)) as [e|] eqn:Hf; simpl.
  - apply find_some in Hf as [_ He]. split; [reflexivity | now apply startswith_drop].
  - eexists. reflexivity.
Qed.

End GetEnv.

(** ** Peer classification *)

Section Peers.
Import Re ReFacts.

Lemma matches_peer_pattern (m : string) :
  matches peer_pattern m ->
  exists v p d ds, m = String v (String p (String d ds))
                   /\ lower v = "v"%char /\ lower p = "p"%char /\ isdigit d = true.
Proof.
  unfold peer_pattern, Plus, digit. simpl. intros H.
  repeat match goal with
         | Hm : matches (Seq _ _) _ |- _ => inversion Hm; subst; clear Hm
         | Hm : matches (chr _ _) _ |- _ => inversion Hm; subst; clear Hm
         | Hm : matches (Atom _) _ |- _ => inversion Hm; subst; clear Hm
         | Hm : matches Eps _ |- _ => inversion Hm; subst; clear Hm
         end.
  repeat match goal with
         | Hc : Ascii.eqb _ _ = true |- _ => apply Ascii.eqb_eq in Hc
         end.
  simpl. eauto 10.
Qed.

Lemma peer_pattern_matches (v p d : ascii) :
  lower v = "v"%char -> lower p = "p"%char -> isdigit d = true ->
  matches peer_pattern (String v (String p (String d EmptyString))).
Proof.
  intros Hv Hp Hd. unfold peer_pattern, Plus, digit.
  change (String v (String p (String d EmptyString)))
    with ((String v EmptyString ++ (String p EmptyString ++ EmptyString))
          ++ (String d EmptyString ++ EmptyString))%string.
  repeat constructor; simpl; try rewrite Hv; try rewrite Hp; auto using Ascii.eqb_refl.
Qed.

(** C7: a container is a peer exactly when its name contains the letters v
    and p, in either case, followed by a digit; vp0 and VP12 are peers,
    peer1 and vp are not. *)
Theorem containerIsPeer_iff_name_matches :
  (forall container,
      containerIsPeer container = true <->
      exists a v p d q,
        containerName container = (a ++ String v (String p (String d q)))%string
        /\ lower v = "v"%char /\ lower p = "p"%char /\ isdigit d = true)
  /\ containerIsPeer (mkContainerData "vp0" "" [] "") = true
  /\ containerIsPeer (mkContainerData "VP12" "" [] "") = true
  /\ containerIsPeer (mkContainerData "peer1" "" [] "") = false
  /\ containerIsPeer (mkContainerData "vp" "" [] "") = false.
Proof.
  split; [| repeat split; reflexivity].
  intros container. unfold containerIsPeer. rewrite search_spec. split.
  - intros (a & m & q & Hs & Hm).
    apply matches_peer_pattern in Hm as (v & p & d & ds & -> & Hv & Hp & Hd).
    exists a, v, p, d, (ds ++ q)%string. rewrite Hs. simpl. auto.
  - intros (a & v & p & d & q & Hs & Hv & Hp & Hd).
    exists a, (String v (String p (String d EmptyString))), q.
    split; [rewrite Hs; reflexivity | now apply peer_pattern_matches].
Qed.

End Peers.

(** ** The monad *)

Section Monad.

Variables W A B : Type.

Lemma bind_Ret_inv (m : M W A) (k : A -> M W B) (w w' : W) (b : B) :
  bind m k w = Ret b w' ->
  exists a w1, m w = Ret a w1 /\ k a w1 = Ret b w'.
Proof.
  unfold bind. destruct (m w) as [a w1| |]; intros H; try discriminate. eauto.
Qed.

Lemma bind_Ret (m : M W A) (k : A -> M W B) (w w1 : W) (a : A) :
  m w = Ret a w1 -> bind m k w = k a w1.
Proof. unfold bind. now intros ->. Qed.

Lemma first_Ret_inv (l : list A) (w w' : W) (a : A) :
  first l w = Ret a w' -> w' = w /\ exists l', l = a :: l'.
Proof.
  destruct l as [|x l']; simpl; unfold ret, raise; intros H; inversion H; subst. eauto.
Qed.

End Monad.

Ltac bind_inv H :=
  let a := fresh "a" in
  let w := fresh "w" in
  let H1 := fresh H in
  apply bind_Ret_inv in H as (a & w & H1 & H).

(** ** The container registry *)

Section Registry.

Lemma mem_spec (x : string) (l : list string) : PyStr.mem x l = true <-> In x l.
Proof.
  unfold PyStr.mem. rewrite existsb_exists. split.
  - intros [y [Hy Hxy]]. apply String.eqb_eq in Hxy. now subst.
  - intros H. exists x. split; [exact H | apply String.eqb_refl].
Qed.

Lemma NoDup_snoc (x : string) (l : list string) :
  NoDup l -> ~ In x l -> NoDup (l ++ [x]).
Proof.
  induction l as [|y l IH]; simpl; intros Hl Hx.
  - constructor; [intros [] | constructor].
  - inversion Hl; subst. constructor.
    + rewrite in_app_iff. simpl. intuition congruence.
    + apply IH; tauto.
Qed.



Lemma addContainerName_spec (prefix : string) (names : list string) (l : string) :
  NoDup names ->
  NoDup (addContainerName prefix names l)
  /\ forall name, In name (addContainerName prefix names l) <->
                  In name names \/ names_of_line prefix l name.
Proof.
  intros Hnd. unfold addContainerName, names_of_line.
  destruct (PyStr.split l) as [|token0 [|thisContainer tokens]].
  - split; [exact Hnd |]. intros name. split; [tauto |].
    intros [H | (? & ? & ? & H & _)]; [exact H | discriminate].
  - split; [exact Hnd |]. intros name. split; [tauto |].
    intros [H | (? & ? & ? & H & _)]; [exact H | discriminate].
  - fold (normalized prefix thisContainer).
    destruct (PyStr.mem (normalized prefix thisContainer) names) eqn:Hmem.
    + apply mem_spec in Hmem. split; [exact Hnd |]. intros name. split; [tauto |].
      intros [H | (? & ? & ? & H & ->)]; [exact H |]. now injection H as _ <- _.
    + assert (Hnot : ~ In (normalized prefix thisContainer) names)
        by (rewrite <- mem_spec, Hmem; discriminate).
      split; [now apply NoDup_snoc |]. intros name. rewrite in_app_iff. simpl. split.
      * intros [H | [<- | []]]; [now left | right; eauto].
      * intros [H | (? & ? & ? & H & ->)]; [now left |].
        injection H as _ <- _. right. now left.
Qed.

Lemma fold_addContainerName_spec (prefix : string) (lines : list string) :
  forall names,
    NoDup names ->
    NoDup (fold_left (addContainerName prefix) lines names)
    /\ forall name, In name (fold_left (addContainerName prefix) lines names) <->
                    In name names \/ exists l, In l lines /\ names_of_line prefix l name.
Proof.
  induction lines as [|l lines IH]; intros names Hnd; simpl.
  - split; [exact Hnd |]. intros name. split; [tauto | intros [H | (? & [] & _)]; exact H].
  - destruct (addContainerName_spec prefix l Hnd) as [Hnd' Hin'].
    destruct (IH _ Hnd') as [Hnd'' Hin'']. split; [exact Hnd'' |].
    intros name. rewrite Hin'', Hin'. split.
    + intros [[H | H] | (l' & Hl' & H)]; eauto 6.
    + intros [H | (l' & [<- | Hl'] & H)]; eauto 6.
Qed.

Lemma collectContainerNames_second_names (prefix output name : string) :
  (exists l, In l (PyStr.splitlines output) /\ names_of_line prefix l name) ->
  In name (collectContainerNames prefix output).
Proof.
  intros H. unfold collectContainerNames.
  destruct (fold_addContainerName_spec prefix (PyStr.splitlines output)
              (NoDup_nil string)) as [_ Hin].
  apply Hin. now right.
Qed.




Variable E : Environment.

Lemma inspectContainer_name (name : string) (w w' : World E) (c : ContainerData) :
  inspectContainer E name w = Ret c w' -> containerName c = name.
Proof.
  unfold inspectContainer. intros H.
  repeat bind_inv H. unfold ret in H. now inversion H.
Qed.

Lemma for_append_inspect_names (names : list string) :
  forall acc (w w' : World E) l,
    for_append (inspectContainer E) names acc w = Ret l w' ->
    exists new, l = acc ++ new /\ map containerName new = names.
Proof.
  induction names as [|name names IH]; intros acc w w' l H; simpl in H.
  - unfold ret in H. inversion H; subst. exists []. now rewrite app_nil_r.
  - bind_inv H. apply inspectContainer_name in H0.
    apply IH in H as (new & -> & Hnew). exists (a :: new).
    rewrite <- app_assoc. simpl. now rewrite H0, Hnew.
Qed.

(** What a successful parse leaves on the context: the records that were
    there, followed by one record per collected name. *)
Lemma parseComposeOutput_Ret_inv (context context' : Context) (w w' : World E) :
  parseComposeOutput E context w = Ret context' w' ->
  exists output new,
    compose_error context = Some output
    /\ registry context' = registry context ++ new
    /\ map containerName new =
       collectContainerNames (os_path_basename (os_getcwd E w) ++ "_") output.
Proof.
  unfold parseComposeOutput. intros H.
  bind_inv H. unfold observe in H0. inversion H0; subst; clear H0.
  bind_inv H. destruct (compose_error context) as [output|]; [| discriminate H0].
  unfold ret in H0. inversion H0; subst; clear H0.
  bind_inv H. apply for_append_inspect_names in H0 as (new & -> & Hnew).
  unfold ret in H. inversion H; subst; clear H.
  eexists. exists new. unfold registry. simpl. auto.
Qed.

(** C9, amended: the test for the prefix is a substring test.  A second
    token in which the project prefix followed by an underscore occurs
    nowhere is normalized to prefix, underscore, token, _1: that is the name
    its line yields, the name collected from the output and the name of a
    record of the registry after the parse. *)
Theorem unprefixed_token_normalized
    (context context' : Context) (w w' : World E)
    (output l token0 thisContainer : string) (tokens : list string) :
  let project := os_path_basename (os_getcwd E w) in
  parseComposeOutput E context w = Ret context' w' ->
  compose_error context = Some output ->
  In l (PyStr.splitlines output) ->
  PyStr.split l = token0 :: thisContainer :: tokens ->
  PyStr.contains (project ++ "_") thisContainer = false ->
  addContainerName (project ++ "_") [] l = [(project ++ "_" ++ thisContainer ++ "_1")%string]
  /\ In (project ++ "_" ++ thisContainer ++ "_1")%string
        (collectContainerNames (project ++ "_") output)
  /\ In (project ++ "_" ++ thisContainer ++ "_1")%string (registry_names context').
Proof.
  intros project Hparse Herr Hl Hsplit Hlacks.
  assert (Hname : ((project ++ "_") ++ thisContainer ++ "_1")%string
                  = (project ++ "_" ++ thisContainer ++ "_1")%string)
    by apply ReFacts.append_assoc.
  assert (Hin : In (project ++ "_" ++ thisContainer ++ "_1")%string
                   (collectContainerNames (project ++ "_") output)).
  { apply collectContainerNames_second_names.
    exists l. split; [exact Hl |]. exists token0, thisContainer, tokens.
    split; [exact Hsplit |]. unfold normalized. now rewrite Hlacks, Hname. }
  split; [| split; [exact Hin |]].
  - unfold addContainerName. now rewrite Hsplit, Hlacks, Hname.
  - apply parseComposeOutput_Ret_inv in Hparse as (output' & new & Herr' & Hreg & Hnew).
    rewrite Herr in Herr'. injection Herr' as <-.
    unfold registry_names. rewrite Hreg, map_app, in_app_iff. right.
    now rewrite Hnew.
Qed.

End Registry.

(** C9, as stated, fails: the token subnet_db does not begin with the
    project prefix net, yet it is kept as it is, because net_ occurs in its
    middle. *)
Lemma token_holding_prefix_not_normalized :
  ~ token_lacking_prefix_normalized "net" "Creating subnet_db ... done".
Proof.
  intros H.
  specialize (H "Creating" "subnet_db" ["..."; "done"] eq_refl eq_refl).
  vm_compute in H. discriminate H.
Qed.

(** The test for the prefix is a substring test: a token that holds the
    prefix in its middle is kept as it is. *)
Example token_holding_prefix_kept :
  collectContainerNames "net_" "Creating subnet_db ... done" = ["subnet_db"].
Proof. reflexivity. Qed.

Lemma unprefixed_token_normalized_witness :
  In "net_membersrvc_1" (registry_names Sim.parsed).
Proof.
  apply (@unprefixed_token_normalized Sim.E Sim.session Sim.parsed 0%nat 0%nat
           Sim.compose_output "Creating membersrvc ... " "Creating" "membersrvc" ["..."]).
  - reflexivity.
  - reflexivity.
  - vm_compute. tauto.
  - reflexivity.
  - reflexivity.
Defined.

(** ** Merging into the session registry *)



Section Merge.

Variable E : Environment.


End Merge.


(** ** Peer convergence *)


Section Convergence.

Variable E : Environment.
Variable buildUrl : Context -> string -> string -> string.

(** C5: on a status other than 200 the peer-list query returns None and
    raises nothing; on status 200 it returns the peers field of the body;
    it raises, with an explicit error, exactly when the status is 200 and
    the body has no peers field. *)
Theorem getConnectedPeersFromPeer_absent_or_field
    (context : Context) (thisPeer : ContainerData) (w w' : World E) (response : Response) :
  requests_get E (buildUrl context (ipAddress thisPeer) "/network/peers") w = (response, w') ->
  (status_code response <> 200%Z ->
   getConnectedPeersFromPeer E buildUrl context thisPeer w = Ret JNull w')
  /\ (forall peers,
         status_code response = 200%Z ->
         json_field "peers" (json response) = Some peers ->
         getConnectedPeersFromPeer E buildUrl context thisPeer w = Ret peers w')
  /\ ((exists e, getConnectedPeersFromPeer E buildUrl context thisPeer w = Raise e)
      <-> status_code response = 200%Z /\ json_field "peers" (json response) = None)
  /\ (status_code response = 200%Z -> json_field "peers" (json response) = None ->
      getConnectedPeersFromPeer E buildUrl context thisPeer w
      = Raise (AssertionError "There should be a peer json attribute")).
Proof.
  intros Hget. unfold getConnectedPeersFromPeer, bind, lift. rewrite Hget.
  destruct (Z.eqb_spec (status_code response) 200) as [H200 | H200]; simpl.
  - unfold getAttributeFromJSON.
    assert (Hcases :
              (exists peers, json_field "peers" (json response) = Some peers
                             /\ forall msg, @getAttributeFromJSON (World E) "peers"
                                              (json response) msg w' = Ret peers w')
              \/ (json_field "peers" (json response) = None
                  /\ forall msg, @getAttributeFromJSON (World E) "peers"
                                   (json response) msg w' = Raise (AssertionError msg))).
    { unfold getAttributeFromJSON, json_field.
      destruct (json response) as [| | | | |fields]; try (right; split; reflexivity).
      destruct (assoc "peers" fields) as [v|]; [left; exists v | right]; split; reflexivity. }
    fold (@getAttributeFromJSON (World E) "peers" (json response)
            "There should be a peer json attribute").
    destruct Hcases as [(peers & Hf & Hrun) | [Hf Hrun]]; rewrite Hrun, Hf.
    + split; [tauto |]. split; [intros p _ Hp; congruence |].
      split; [| discriminate]. split; [intros [e He]; discriminate He | intros [_ H]; discriminate H].
    + split; [tauto |]. split; [discriminate |].
      split; [| reflexivity]. split; [auto | intros _; eexists; reflexivity].
  - split; [reflexivity |]. split; [tauto |]. split; [| tauto].
    split; [intros [e He]; discriminate He | tauto].
Qed.

(** C2: the convergence check is false whenever the peer-list query gives
    None, whatever the expected peers; when the query gives a list, the
    check is true exactly when the list is as long as the list of expected
    peers; and two lists of expected peers of the same length give the same
    answer. *)
Theorem peerIsReady_compares_lengths
    (context : Context) (thisPeer : ContainerData) (allPeers : list ContainerData)
    (w : World E) :
  match getConnectedPeersFromPeer E buildUrl context thisPeer w with
  | Ret JNull w' => peerIsReady E buildUrl context thisPeer allPeers w = Ret false w'
  | Ret (JArr connectedPeers) w' =>
      exists b, peerIsReady E buildUrl context thisPeer allPeers w = Ret b w'
                /\ (b = true <-> length connectedPeers = length allPeers)
  | _ => True
  end
  /\ forall otherPeers,
      length otherPeers = length allPeers ->
      peerIsReady E buildUrl context thisPeer otherPeers w
      = peerIsReady E buildUrl context thisPeer allPeers w.
Proof.
  unfold peerIsReady, bind. split.
  - destruct (getConnectedPeersFromPeer E buildUrl context thisPeer w)
      as [[| | | |connectedPeers|] w'| |]; simpl; auto.
    eexists. split; [reflexivity |]. rewrite Nat.eqb_eq. split; congruence.
  - intros otherPeers Hlen. rewrite Hlen. reflexivity.
Qed.

End Convergence.

(** The endpoint of the simulated peer answers 200 and lists two peers. *)
Lemma getConnectedPeersFromPeer_absent_or_field_witness :
  getConnectedPeersFromPeer Sim.E Sim.url Sim.parsed
    (mkContainerData "net_vp0_1" "172.17.0.2" [] "vp0") 0%nat
  = Ret (JArr [JObj []; JObj []]) 0%nat.
Proof.
  apply (@getConnectedPeersFromPeer_absent_or_field Sim.E Sim.url Sim.parsed
           (mkContainerData "net_vp0_1" "172.17.0.2" [] "vp0") 0%nat 0%nat
           (mkResponse 200 (JObj [("peers", JArr [JObj []; JObj []])]))).
  - reflexivity.
  - reflexivity.
  - reflexivity.
Defined.

(** ** Container readiness *)

Section Readiness.

Variable E : Environment.
Variable CORE_REST_PORT : Z.

(** C3: the readiness check is true exactly when some line of the netstat
    output shows ESTABLISHED or LISTEN and, if the container is a peer, the
    curl probe of its REST port exits with code zero; a container that is
    not a peer needs the first condition only. *)
Theorem containerIsInitialized_iff_tcp_and_rest
    (container : ContainerData) (w w1 w2 : World E)
    (stdout stderr out err : string) (netstatCode returnCode : Z) :
  run_command E ["docker"; "exec"; containerName container; "netstat"; "-atun"] w
  = (stdout, stderr, netstatCode, w1) ->
  run_command E ["docker"; "exec"; containerName container; "curl";
                 ("localhost:" ++ str_of_Z CORE_REST_PORT)%string] w1
  = (out, err, returnCode, w2) ->
  exists isReady w',
    containerIsInitialized E CORE_REST_PORT container w = Ret isReady w'
    /\ (isReady = true <->
        (exists line, In line (PyStr.splitlines stdout)
                      /\ (PyStr.contains "ESTABLISHED" line = true
                          \/ PyStr.contains "LISTEN" line = true))
        /\ (containerIsPeer container = true -> returnCode = 0%Z)).
Proof.
  intros Hnetstat Hcurl.
  unfold containerIsInitialized, tcpPortsAreReady, getContainerNetstatOutput,
    restPortRespondsIfContainerIsPeer, bind, cli_call, ret.
  rewrite Hnetstat. simpl.
  assert (Htcp : existsb (Re.search socket_pattern) (PyStr.splitlines stdout) = true <->
                 exists line, In line (PyStr.splitlines stdout)
                              /\ (PyStr.contains "ESTABLISHED" line = true
                                  \/ PyStr.contains "LISTEN" line = true)).
  { rewrite existsb_exists. unfold socket_pattern.
    split; intros [line [Hin H]]; exists line; (split; [exact Hin |]);
      rewrite ReFacts.search_alt, !ReFacts.search_lit, orb_true_iff in *; exact H. }
  destruct (existsb (Re.search socket_pattern) (PyStr.splitlines stdout)).
  - destruct (containerIsPeer container).
    + simpl in Hcurl. rewrite Hcurl. simpl. eexists _, _. split; [reflexivity |].
      rewrite Z.eqb_eq. split; [intros ->; split; [now apply Htcp | auto] | intros [_ H]; auto].
    + eexists _, _. split; [reflexivity |].
      split; [intros _; split; [now apply Htcp | discriminate] | reflexivity].
  - eexists _, _. split; [reflexivity |].
    split; [discriminate | intros [H _]; now apply Htcp].
Qed.

End Readiness.

(** The simulated peer net_vp0_1 listens and answers on its REST port. *)
Lemma containerIsInitialized_iff_tcp_and_rest_witness :
  exists isReady w',
    containerIsInitialized Sim.E 7050 (mkContainerData "net_vp0_1" "172.17.0.2" [] "vp0") 0%nat
    = Ret isReady w'
    /\ (isReady = true <->
        (exists line,
            In line (PyStr.splitlines
                       (fst (fst (Sim.docker 0 ["docker"; "exec"; "net_vp0_1"; "netstat"; "-atun"]
                                    0%nat))))
            /\ (PyStr.contains "ESTABLISHED" line = true
                \/ PyStr.contains "LISTEN" line = true))
        /\ (containerIsPeer (mkContainerData "net_vp0_1" "172.17.0.2" [] "vp0") = true ->
            0%Z = 0%Z)).
Proof.
  apply (@containerIsInitialized_iff_tcp_and_rest Sim.E 7050
           (mkContainerData "net_vp0_1" "172.17.0.2" [] "vp0") 0%nat 0%nat 0%nat
           _ "" "ok" "" 0%Z 0%Z).
  - reflexivity.
  - reflexivity.
Defined.

(** ** Polling under a deadline *)


Section Deadline.

Variable E : Environment.


Lemma poll_step (fuel : nat) (check : M (World E) bool) (deadline : Q) (w : World E) :
  poll E (S fuel) check deadline w =
  match check w with
  | Ret true w1 => Ret true w1
  | Ret false w1 =>
      if Qle_bool (time_time E w1) deadline
      then poll E fuel check deadline (time_sleep E 1 w1)
      else Ret false w1
  | Raise e => Raise e
  | OutOfFuel => OutOfFuel
  end.
Proof.
  simpl. unfold bind, timestampExceeded, observe, sleep, ret, bind.
  destruct (check w) as [[|] w1| |]; simpl; try reflexivity.
  destruct (Qle_bool (time_time E w1) deadline); reflexivity.
Qed.



(** A check that holds at its first evaluation passes whatever the
    deadline: the clock is read only after a failed evaluation. *)
Lemma poll_first_evaluation (check : M (World E) bool) (deadline : Q)
    (fuel : nat) (w w' : World E) :
  check w = Ret true w' -> poll E (S fuel) check deadline w = Ret true w'.
Proof. intros H. now rewrite poll_step, H. Qed.

Lemma inject_succ (n : nat) :
  (inject_Z (Z.of_nat (S n)) == inject_Z (Z.of_nat n) + 1)%Q.
Proof. rewrite Nat2Z.inj_succ. unfold Z.succ. now rewrite inject_Z_plus. Qed.

Section OneCheck.

Variable check : M (World E) bool.
Variable deadline : Q.
Hypothesis check_total : forall w, check w <> OutOfFuel.
Hypothesis check_clock :
  forall w b w', check w = Ret b w' -> (time_time E w <= time_time E w')%Q.
Hypothesis sleep_clock :
  forall w, (time_time E w + 1 <= time_time E (time_sleep E 1 w))%Q.

(** The loop ends within as many sleeps as whole seconds remain. *)
Lemma poll_terminates (fuel : nat) :
  forall w, (deadline - time_time E w < inject_Z (Z.of_nat fuel))%Q ->
            poll E (S fuel) check deadline w <> OutOfFuel.
Proof.
  induction fuel as [|fuel IH]; intros w Hleft; rewrite poll_step;
    destruct (check w) as [[|] w1| |] eqn:Hc; try discriminate;
    try (now apply check_total in Hc);
    destruct (Qle_bool (time_time E w1) deadline) eqn:Hle; try discriminate;
    apply Qle_bool_iff in Hle; apply check_clock in Hc.
  - exfalso. change (inject_Z (Z.of_nat 0)) with 0%Q in Hleft. lra.
  - apply IH. rewrite inject_succ in Hleft. specialize (sleep_clock w1). lra.
Qed.


End OneCheck.

Section ManyChecks.

Variable A : Type.
Variable check : A -> M (World E) bool.
Variable deadline : Q.



Hypothesis check_total : forall x w, check x w <> OutOfFuel.
Hypothesis check_clock :
  forall x w b w', check x w = Ret b w' -> (time_time E w <= time_time E w')%Q.
Hypothesis sleep_clock :
  forall w, (time_time E w + 1 <= time_time E (time_sleep E 1 w))%Q.



End ManyChecks.

End Deadline.

(** ** Overall readiness *)

Lemma Sim_clock_advances cmd http cwd : clock_advances (Sim.env cmd http cwd).
Proof.
  split; simpl; intros.
  - apply Qle_refl.
  - apply Qle_refl.
  - rewrite Nat2Z.inj_add, inject_Z_plus.
    assert (H1 : (seconds <= inject_Z (Qceiling seconds))%Q) by apply Qle_ceiling.
    assert (H2 : (inject_Z (Qceiling seconds)
                  <= inject_Z (Z.of_nat (Z.to_nat (Qceiling seconds))))%Q).
    { rewrite <- Zle_Qle. lia. }
    lra.
Qed.

Section Overall.

Variable E : Environment.
Variable CORE_REST_PORT : Z.
Variable buildUrl : Context -> string -> string -> string.
Hypothesis clock : clock_advances E.

Lemma containerIsInitializedByTimestamp_poll (fuel : nat) container deadline :
  containerIsInitializedByTimestamp E CORE_REST_PORT fuel container deadline
  = poll E fuel (containerIsInitialized E CORE_REST_PORT container) deadline.
Proof.
  induction fuel as [|fuel IH]; simpl; [reflexivity |].
  rewrite IH. reflexivity.
Qed.

Lemma peerIsReadyByTimestamp_poll (fuel : nat) context peer peers deadline :
  peerIsReadyByTimestamp E buildUrl fuel context peer peers deadline
  = poll E fuel (peerIsReady E buildUrl context peer peers) deadline.
Proof.
  induction fuel as [|fuel IH]; simpl; [reflexivity |].
  rewrite IH. reflexivity.
Qed.

Lemma for_all_checks_ext {A} (f g : A -> M (World E) bool) (l : list A) (w : World E) :
  (forall x, f x = g x) -> for_all_checks E f l w = for_all_checks E g l w.
Proof.
  intros Hfg. revert w. induction l as [|x l IH]; intros w; simpl; [reflexivity |].
  unfold bind. rewrite Hfg. destruct (g x w) as [[|] w1| |]; auto.
Qed.

Lemma cli_call_tolerant (argv : list string) (w : World E) :
  exists stdout stderr returncode w',
    cli_call E argv false w = Ret (stdout, stderr, returncode) w'
    /\ run_command E argv w = (stdout, stderr, returncode, w')
    /\ (time_time E w <= time_time E w')%Q.
Proof.
  unfold cli_call. pose proof (run_command_clock clock argv w) as Hc.
  destruct (run_command E argv w) as [[[stdout stderr] returncode] w'].
  simpl in *. eauto 10.
Qed.

(** The readiness check always answers, and the clock does not run
    backwards while it does. *)
Lemma containerIsInitialized_answers (container : ContainerData) (w : World E) :
  exists b w', containerIsInitialized E CORE_REST_PORT container w = Ret b w'
               /\ (time_time E w <= time_time E w')%Q.
Proof.
  unfold containerIsInitialized, tcpPortsAreReady, getContainerNetstatOutput,
    restPortRespondsIfContainerIsPeer, bind, ret.
  destruct (cli_call_tolerant
              ["docker"; "exec"; containerName container; "netstat"; "-atun"] w)
    as (out & err & rc & w1 & -> & _ & H1).
  destruct (existsb _ _); [| eauto].
  destruct (containerIsPeer container); [| eauto].
  match goal with
  | |- context [cli_call E ?argv false w1] =>
      destruct (cli_call_tolerant argv w1) as (out2 & err2 & rc2 & w2 & -> & _ & H2)
  end.
  eexists _, _. split; [reflexivity | lra].
Qed.

Lemma containerIsInitialized_total container w :
  containerIsInitialized E CORE_REST_PORT container w <> OutOfFuel.
Proof.
  destruct (containerIsInitialized_answers container w) as (b & w' & -> & _).
  discriminate.
Qed.

Lemma containerIsInitialized_clock container w b w' :
  containerIsInitialized E CORE_REST_PORT container w = Ret b w' ->
  (time_time E w <= time_time E w')%Q.
Proof.
  destruct (containerIsInitialized_answers container w) as (b0 & w0 & -> & H).
  intros Heq. now injection Heq as _ <-.
Qed.






(** The function as two runs of polls under the deadline it computed. *)
Lemma allContainersAreReadyWithinTimeout_polls
    (fuel : nat) (context : Context) (containers : list ContainerData)
    (timeout deadline : Q) (formattedTime : string) (w : World E) :
  compose_containers context = Some containers ->
  float_add E (time_time E w) timeout = inr deadline ->
  strftime_localtime E "%X" deadline = inr formattedTime ->
  allContainersAreReadyWithinTimeout E CORE_REST_PORT buildUrl fuel context timeout w
  = (containersAreReady <-
       for_all_checks E
         (fun container =>
            poll E fuel (containerIsInitialized E CORE_REST_PORT container) deadline)
         containers ;;
     if containersAreReady
     then for_all_checks E
            (fun peer =>
               poll E fuel
                 (peerIsReady E buildUrl context peer (getPeerContainers containers))
                 deadline)
            (getPeerContainers containers)
     else ret false) w.
Proof.
  intros Hreg Hadd Hfmt.
  unfold allContainersAreReadyWithinTimeout, peersAreReadyByTimestamp.
  unfold bind, observe, from_sum. rewrite Hadd, Hfmt, Hreg. unfold ret at 1.
  rewrite (@for_all_checks_ext _ _
             (fun container =>
                poll E fuel (containerIsInitialized E CORE_REST_PORT container) deadline))
    by (intros x; apply containerIsInitializedByTimestamp_poll).
  destruct (for_all_checks E _ containers w) as [[|] w1| |]; try reflexivity.
  apply for_all_checks_ext. intros x. apply peerIsReadyByTimestamp_poll.
Qed.

(** What the function did when it returned: it had a registry, a deadline
    and the formatted time of the deadline. *)
Lemma allContainersAreReadyWithinTimeout_Ret_inv
    (fuel : nat) (context : Context) (timeout : Q) (w w' : World E) (b : bool) :
  allContainersAreReadyWithinTimeout E CORE_REST_PORT buildUrl fuel context timeout w
  = Ret b w' ->
  exists containers deadline formattedTime,
    compose_containers context = Some containers
    /\ float_add E (time_time E w) timeout = inr deadline
    /\ strftime_localtime E "%X" deadline = inr formattedTime.
Proof.
  unfold allContainersAreReadyWithinTimeout, bind, observe, from_sum.
  destruct (float_add E (time_time E w) timeout) as [e|deadline]; [discriminate |].
  destruct (strftime_localtime E "%X" deadline) as [e|formattedTime] eqn:Hfmt;
    [discriminate |].
  destruct (compose_containers context) as [containers|]; [| discriminate].
  intros _. exists containers, deadline, formattedTime. auto.
Qed.


End Overall.




(** * Further properties of the module *)

(** ** Compose file arguments *)

Lemma fold_left_file_args (parts : list string) :
  forall args,
    fold_left (fun args part => args ++ ["-f"] ++ [part]) parts args
    = args ++ flat_map (fun part => ["-f"; part]) parts.
Proof.
  induction parts as [|part parts IH]; intros args; simpl.
  - now rewrite app_nil_r.
  - rewrite IH, <- app_assoc. reflexivity.
Qed.

Lemma nth_error_file_args (parts : list string) :
  forall i part,
    nth_error parts i = Some part <->
    nth_error (flat_map (fun part => ["-f"; part]) parts) (2 * i)%nat = Some "-f"
    /\ nth_error (flat_map (fun part => ["-f"; part]) parts) (2 * i + 1)%nat = Some part.
Proof.
  induction parts as [|p parts IH]; intros i part.
  - cbn [flat_map]. split.
    + destruct i; discriminate.
    + intros [H _]. destruct (2 * i)%nat; discriminate H.
  - destruct i as [|i].
    + cbn. split; [intros H; injection H as ->; auto | intros [_ H]; exact H].
    + replace (2 * S i)%nat with (S (S (2 * i)))%nat by lia.
      replace (S (S (2 * i)) + 1)%nat with (S (S (2 * i + 1)))%nat by lia.
      cbn [flat_map app nth_error]. apply IH.
Qed.

(** X1: the arguments are one -f and one file name per whitespace-separated
    part of the input, in the order of the parts: twice as many arguments as
    parts, and none for an input without parts. *)
Theorem getDockerComposeFileArgsFromYamlFile_pairs (compose_yaml : string) :
  getDockerComposeFileArgsFromYamlFile compose_yaml
  = flat_map (fun part => ["-f"; part]) (PyStr.split compose_yaml)
  /\ length (getDockerComposeFileArgsFromYamlFile compose_yaml)
     = (2 * length (PyStr.split compose_yaml))%nat
  /\ (forall i part,
         nth_error (PyStr.split compose_yaml) i = Some part <->
         nth_error (getDockerComposeFileArgsFromYamlFile compose_yaml) (2 * i)%nat = Some "-f"
         /\ nth_error (getDockerComposeFileArgsFromYamlFile compose_yaml) (2 * i + 1)%nat
            = Some part).
Proof.
  unfold getDockerComposeFileArgsFromYamlFile. rewrite fold_left_file_args.
  cbn [app]. generalize (PyStr.split compose_yaml) as parts. intros parts.
  split; [reflexivity |]. split; [| apply nth_error_file_args].
  induction parts as [|part parts IH]; cbn [flat_map app length]; [reflexivity |].
  rewrite IH. lia.
Qed.

(** ** Environment lookup, further *)

Section GetEnvMore.

Variable W : Type.

Lemma drop_append (a b : string) : PyStr.drop (PyStr.len a) (a ++ b)%string = b.
Proof. induction a; simpl; auto. Qed.

Lemma startswith_append (a b : string) : PyStr.startswith a (a ++ b)%string = true.
Proof. apply ReFacts.startswith_spec. now exists b. Qed.

Lemma getEnv_scan_skip (key : string) (pre rest : list string) :
  Forall (fun entry => PyStr.startswith key entry = false) pre ->
  getEnv_scan key (pre ++ rest) = getEnv_scan key rest.
Proof.
  induction 1 as [|entry pre Hentry _ IH]; simpl; [reflexivity |].
  now rewrite Hentry.
Qed.

(** X2: looked up with its equals sign, a variable gives back its value:
    when the entry name=value is the first that starts with name=, the
    lookup of name= returns exactly value. *)
Theorem getEnv_returns_value_of_entry
    (self : ContainerData) (name value : string) (pre post : list string) (w : W) :
  envFromInspect self = pre ++ (name ++ "=" ++ value)%string :: post ->
  Forall (fun entry => PyStr.startswith (name ++ "=") entry = false) pre ->
  getEnv self (name ++ "=")%string w = Ret value w.
Proof.
  intros Henv Hpre. unfold getEnv.
  rewrite <- (ReFacts.append_assoc name "=" value) in Henv.
  rewrite Henv, getEnv_scan_skip by exact Hpre.
  cbn [getEnv_scan]. rewrite startswith_append, drop_append. reflexivity.
Qed.

(** X3: the empty key matches every entry: the lookup returns the first
    entry whole, and raises only on an empty environment. *)
Theorem getEnv_empty_key (self : ContainerData) (w : W) :
  match envFromInspect self with
  | [] => getEnv self "" w
          = Raise (Exception ("ENV key not found () for container ("
                                ++ containerName self ++ ")")%string)
  | entry :: _ => getEnv self "" w = Ret entry w
  end.
Proof.
  unfold getEnv. destruct (envFromInspect self); reflexivity.
Qed.

End GetEnvMore.

Lemma getEnv_returns_value_of_entry_witness :
  getEnv (mkContainerData "net_vp0_1" "172.17.0.2"
            ["CORE_PEER_ADDRESSAUTODETECT=true"; "CORE_PEER_ADDRESS=0.0.0.0:7051"; "PATH=/bin"]
            "vp0")
    "CORE_PEER_ADDRESS=" tt
  = Ret "0.0.0.0:7051" tt.
Proof.
  apply (@getEnv_returns_value_of_entry unit
           (mkContainerData "net_vp0_1" "172.17.0.2"
              ["CORE_PEER_ADDRESSAUTODETECT=true"; "CORE_PEER_ADDRESS=0.0.0.0:7051"; "PATH=/bin"]
              "vp0")
           "CORE_PEER_ADDRESS" "0.0.0.0:7051"
           ["CORE_PEER_ADDRESSAUTODETECT=true"] ["PATH=/bin"] tt).
  - reflexivity.
  - repeat constructor.
Defined.

(** ** Peer classification, further *)

Section PeersMore.
Import Re ReFacts.

Lemma lower_idempotent (c : ascii) : lower (lower c) = lower c.
Proof.
  destruct c as [[] [] [] [] [] [] [] []]; reflexivity.
Qed.

Lemma isdigit_lower (c : ascii) : isdigit (lower c) = isdigit c.
Proof.
  destruct c as [[] [] [] [] [] [] [] []]; reflexivity.
Qed.

Lemma case_blind_deriv (r : regex) (c : ascii) :
  case_blind r -> case_blind (deriv c r) /\ deriv (lower c) r = deriv c r.
Proof.
  induction r as [| |p|r1 IH1 r2 IH2|r1 IH1 r2 IH2|r1 IH1]; simpl; intros H.
  - auto.
  - auto.
  - rewrite H. destruct (p c); simpl; auto.
  - destruct H as [H1 H2]. destruct (IH1 H1) as [B1 E1], (IH2 H2) as [B2 E2].
    rewrite E1, E2. destruct (nullable r1); simpl; auto.
  - destruct H as [H1 H2]. destruct (IH1 H1) as [B1 E1], (IH2 H2) as [B2 E2].
    rewrite E1, E2. simpl; auto.
  - destruct (IH1 H) as [B1 E1]. rewrite E1. simpl; auto.
Qed.

Lemma match_prefix_lower (s : string) :
  forall r, case_blind r -> match_prefix r (lower_string s) = match_prefix r s.
Proof.
  induction s as [|c s IH]; intros r Hr; simpl; [reflexivity |].
  destruct (@case_blind_deriv r c Hr) as [Hd ->]. now rewrite IH.
Qed.

Lemma search_lower (r : regex) (s : string) :
  case_blind r -> search r (lower_string s) = search r s.
Proof.
  intros Hr. induction s as [|c s IH]; [reflexivity |].
  cbn [search lower_string]. rewrite IH.
  change (String (lower c) (lower_string s)) with (lower_string (String c s)).
  now rewrite match_prefix_lower.
Qed.

Lemma peer_pattern_case_blind : case_blind peer_pattern.
Proof.
  unfold peer_pattern, Plus, digit. simpl.
  repeat split; intros c; try (now rewrite lower_idempotent); apply isdigit_lower.
Qed.

(** X4: the classification ignores the case of letters: two containers
    whose names differ only in case are both peers or both not. *)
Theorem containerIsPeer_ignores_case (c1 c2 : ContainerData) :
  lower_string (containerName c1) = lower_string (containerName c2) ->
  containerIsPeer c1 = containerIsPeer c2.
Proof.
  intros H. unfold containerIsPeer.
  rewrite <- (@search_lower peer_pattern (containerName c1) peer_pattern_case_blind),
          <- (@search_lower peer_pattern (containerName c2) peer_pattern_case_blind).
  now rewrite H.
Qed.

(** X5: the pattern is searched anywhere in the name, so whatever is put
    before and after the name of a peer leaves it a peer; in particular a
    service named like a peer is a peer under its full container name. *)
Theorem containerIsPeer_embedded_name
    (name before after ip ip' service service' : string) (env env' : list string) :
  containerIsPeer (mkContainerData name ip env service) = true ->
  containerIsPeer (mkContainerData (before ++ name ++ after) ip' env' service') = true.
Proof.
  unfold containerIsPeer. cbn [containerName].
  rewrite !search_spec. intros (a & m & q & -> & Hm).
  exists (before ++ a)%string, m, (q ++ after)%string. split; [| exact Hm].
  now rewrite !append_assoc.
Qed.

End PeersMore.

Lemma containerIsPeer_ignores_case_witness :
  containerIsPeer (mkContainerData "NET_VP0_1" "" [] "")
  = containerIsPeer (mkContainerData "net_vp0_1" "" [] "").
Proof.
  apply (@containerIsPeer_ignores_case (mkContainerData "NET_VP0_1" "" [] "")
           (mkContainerData "net_vp0_1" "" [] "")).
  reflexivity.
Defined.

Lemma containerIsPeer_embedded_name_witness :
  containerIsPeer (mkContainerData "net_vp0_1" "172.17.0.2" [] "vp0") = true.
Proof.
  apply (@containerIsPeer_embedded_name "vp0" "net_" "_1" "" "172.17.0.2" "" "vp0" [] []).
  reflexivity.
Defined.

(** ** Collected names, further *)

Section NamesMore.

Lemma contains_own_prefix (p s : string) : PyStr.contains p (p ++ s)%string = true.
Proof. apply ReFacts.contains_spec. now exists EmptyString, s. Qed.

(** X6: every name collected from a compose output holds the container name
    prefix somewhere: a token is kept only when it does, and the prefix
    is put in front of it when it does not. *)
Theorem collected_names_hold_prefix (containerNamePrefix output name : string) :
  In name (collectContainerNames containerNamePrefix output) ->
  PyStr.contains containerNamePrefix name = true.
Proof.
  unfold collectContainerNames. intros H.
  destruct (fold_addContainerName_spec containerNamePrefix
              (PyStr.splitlines output) (NoDup_nil string)) as [_ Hin].
  apply Hin in H as [[] | (l & _ & t0 & t1 & ts & _ & ->)].
  unfold normalized. destruct (PyStr.contains containerNamePrefix t1) eqn:Ht; [exact Ht |].
  apply contains_own_prefix.
Qed.

Lemma all_chars_append (p : ascii -> bool) (a b : string) :
  all_chars p (a ++ b)%string = all_chars p a && all_chars p b.
Proof.
  induction a as [|c a IH]; simpl; [reflexivity |]. now rewrite IH, andb_assoc.
Qed.

Lemma flush_tokens (cur : string) (rest : list string) :
  all_chars (fun c => negb (PyStr.isspace c)) cur = true ->
  Forall is_token rest -> Forall is_token (PyStr.flush cur rest).
Proof.
  intros Hcur Hrest. destruct cur; simpl; [exact Hrest |].
  constructor; [split; [discriminate | exact Hcur] | exact Hrest].
Qed.

Lemma split_from_tokens (s : string) :
  forall cur,
    all_chars (fun c => negb (PyStr.isspace c)) cur = true ->
    Forall is_token (PyStr.split_from cur s).
Proof.
  induction s as [|c s IH]; intros cur Hcur; simpl.
  - apply flush_tokens; [exact Hcur | constructor].
  - destruct (PyStr.isspace c) eqn:Hc.
    + apply flush_tokens; [exact Hcur | now apply IH].
    + apply IH. rewrite all_chars_append, Hcur. simpl. now rewrite Hc.
Qed.

(** What [split] returns are tokens. *)
Lemma split_tokens (s : string) : Forall is_token (PyStr.split s).
Proof. now apply split_from_tokens. Qed.

Lemma all_chars_drop (p : ascii -> bool) (n : nat) (s : string) :
  all_chars p s = true -> all_chars p (PyStr.drop n s) = true.
Proof.
  revert s. induction n as [|n IH]; intros s H; simpl; [exact H |].
  destruct s as [|c s]; [reflexivity |].
  simpl in H. apply andb_true_iff in H as [_ H]. now apply IH.
Qed.

End NamesMore.

Lemma collected_names_hold_prefix_witness :
  PyStr.contains "net_" "net_membersrvc_1" = true.
Proof.
  apply (@collected_names_hold_prefix "net_" Sim.compose_output "net_membersrvc_1").
  vm_compute. tauto.
Defined.

(** ** Parsing the compose output, further *)

Section ParseMore.

Variable E : Environment.

Lemma addContainerName_short_line (prefix : string) (names : list string) (l : string) :
  (length (PyStr.split l) <= 1)%nat -> addContainerName prefix names l = names.
Proof.
  unfold addContainerName. destruct (PyStr.split l) as [|t0 [|t1 ts]]; simpl; auto. lia.
Qed.

Lemma fold_addContainerName_short_lines (prefix : string) (lines names : list string) :
  Forall (fun l => (length (PyStr.split l) <= 1)%nat) lines ->
  fold_left (addContainerName prefix) lines names = names.
Proof.
  induction 1 as [|l lines Hl _ IH]; simpl; [reflexivity |].
  now rewrite addContainerName_short_line.
Qed.

(** X7: when no line of the compose output has two tokens (an empty output
    among them), the parse runs no command and leaves the world as it was;
    the registry is the one there was, and it is set even when the context
    had none. *)
Theorem parseComposeOutput_no_names (context : Context) (output : string) (w : World E) :
  compose_error context = Some output ->
  Forall (fun l => (length (PyStr.split l) <= 1)%nat) (PyStr.splitlines output) ->
  parseComposeOutput E context w
  = Ret (mkContext (Some output) (Some (registry context))) w.
Proof.
  intros Herr Hlines. unfold parseComposeOutput, bind, observe.
  rewrite Herr. unfold ret at 1. unfold collectContainerNames.
  rewrite fold_addContainerName_short_lines by exact Hlines.
  simpl. unfold ret, registry. now rewrite app_nil_r.
Qed.

Lemma for_append_Forall (P : ContainerData -> Prop) (names : list string) :
  (forall name w c w', inspectContainer E name w = Ret c w' -> P c) ->
  forall acc (w w' : World E) l,
    for_append (inspectContainer E) names acc w = Ret l w' ->
    exists new, l = acc ++ new /\ Forall P new.
Proof.
  intros HP. induction names as [|name names IH]; intros acc w w' l H; simpl in H.
  - unfold ret in H. inversion H; subst. exists []. rewrite app_nil_r. auto.
  - bind_inv H. apply HP in H0.
    apply IH in H as (new & -> & Hnew). exists (a :: new).
    rewrite <- app_assoc. auto.
Qed.

Lemma inspectContainer_tokens (name : string) (w w' : World E) (c : ContainerData) :
  inspectContainer E name w = Ret c w' ->
  Forall is_token (envFromInspect c)
  /\ all_chars (fun ch => negb (PyStr.isspace ch)) (composeService c) = true.
Proof.
  unfold inspectContainer. intros H.
  repeat bind_inv H. unfold ret in H. inversion H; subst; clear H. simpl.
  split; [apply split_tokens |].
  match goal with
  | Hf : first (map _ (filter _ (PyStr.split ?labels))) _ = Ret _ _ |- _ =>
      apply first_Ret_inv in Hf as [_ [rest Hrest]];
      pose proof (split_tokens labels) as Htok
  end.
  assert (Hin : In a5 (map (PyStr.drop 27)
                         (filter (PyStr.startswith "com.docker.compose.service:")
                            (PyStr.split (PyStr.slice_to_last 4 a4)))))
    by (rewrite Hrest; now left).
  apply in_map_iff in Hin as (label & <- & Hlabel).
  apply filter_In in Hlabel as [Hlabel _].
  rewrite Forall_forall in Htok. apply all_chars_drop. now apply Htok.
Qed.

(** X8: the environment entries of every record a parse adds are tokens,
    not empty and free of whitespace (a value with a blank in it is cut into
    several entries), and its service name is free of whitespace. *)
Theorem parsed_records_hold_tokens (context context' : Context) (w w' : World E) :
  parseComposeOutput E context w = Ret context' w' ->
  exists new,
    registry context' = registry context ++ new
    /\ Forall (fun c =>
                 Forall is_token (envFromInspect c)
                 /\ all_chars (fun ch => negb (PyStr.isspace ch)) (composeService c) = true)
         new.
Proof.
  unfold parseComposeOutput. intros H.
  bind_inv H. unfold observe in H0. inversion H0; subst; clear H0.
  bind_inv H. destruct (compose_error context) as [output|]; [| discriminate H0].
  unfold ret in H0. inversion H0; subst; clear H0.
  bind_inv H.
  apply for_append_Forall
    with (P := fun c =>
                 Forall is_token (envFromInspect c)
                 /\ all_chars (fun ch => negb (PyStr.isspace ch)) (composeService c) = true)
    in H0 as (new & -> & Hnew); [| intros; eapply inspectContainer_tokens; eauto].
  unfold ret in H. inversion H; subst; clear H.
  exists new. unfold registry. simpl. auto.
Qed.

(** X9: an error of docker inspect fails the whole parse: when the
    inspection of the address of the first collected name raises, the parse
    raises the same error; no record is registered, not even for the names
    that could have been inspected. *)
Theorem parseComposeOutput_inspect_fails
    (context : Context) (output name : string) (names : list string)
    (e : exn) (w : World E) :
  compose_error context = Some output ->
  collectContainerNames (os_path_basename (os_getcwd E w) ++ "_") output = name :: names ->
  cli_call E ["docker"; "inspect"; "--format"; "{{ .NetworkSettings.IPAddress }}"; name]
    true w = Raise e ->
  parseComposeOutput E context w = Raise e.
Proof.
  intros Herr Hnames Hrun. unfold parseComposeOutput, bind, observe.
  rewrite Herr. unfold ret at 1. rewrite Hnames.
  cbn [for_append]. unfold bind, inspectContainer, bind, docker_inspect, bind.
  now rewrite Hrun.
Qed.

Lemma filter_implied (P Q : string -> bool) (l : list string) :
  (forall y, P y = true -> Q y = true) ->
  filter P (filter Q l) = filter P l.
Proof.
  intros HPQ. induction l as [|y l IH]; simpl; [reflexivity |].
  destruct (Q y) eqn:HQ; simpl; rewrite IH; [reflexivity |].
  destruct (P y) eqn:HP; [| reflexivity].
  apply HPQ in HP. congruence.
Qed.

Lemma filter_both (P Q R : string -> bool) (l : list string) :
  (forall y, R y = P y && Q y) ->
  filter P (filter Q l) = filter R l.
Proof.
  intros HR. induction l as [|y l IH]; simpl; [reflexivity |].
  rewrite HR. destruct (Q y); simpl; rewrite IH.
  - destruct (P y); reflexivity.
  - now rewrite andb_false_r.
Qed.

Lemma mem_snoc (y x : string) (names : list string) :
  PyStr.mem y (names ++ [x]) = PyStr.mem y names || String.eqb y x.
Proof.
  unfold PyStr.mem. rewrite existsb_app. simpl. now rewrite orb_false_r.
Qed.

(** The loop appends, to the names it has, the first occurrences of the
    names of the lines that it has not. *)
Lemma fold_addContainerName_in_line_order (prefix : string) (lines : list string) :
  forall names,
    fold_left (addContainerName prefix) lines names
    = names ++ filter (fun y => negb (PyStr.mem y names))
                 (first_occurrences
                    (flat_map
                       (fun l =>
                          match PyStr.split l with
                          | _ :: thisContainer :: _ =>
                              [if PyStr.contains prefix thisContainer then thisContainer
                               else (prefix ++ thisContainer ++ "_1")%string]
                          | _ => []
                          end) lines)).
Proof.
  induction lines as [|l lines IH]; intros names; cbn [fold_left flat_map].
  - cbn. now rewrite app_nil_r.
  - rewrite IH. unfold addContainerName.
    destruct (PyStr.split l) as [|token0 [|thisContainer tokens]];
      cbn [app]; try reflexivity.
    set (x := if PyStr.contains prefix thisContainer then thisContainer
              else (prefix ++ thisContainer ++ "_1")%string).
    cbn [first_occurrences filter].
    destruct (PyStr.mem x names) eqn:Hmem; cbn [negb].
    + f_equal. symmetry. apply filter_implied. intros y Hy.
      destruct (String.eqb_spec y x) as [-> | _]; [| reflexivity].
      rewrite Hmem in Hy. discriminate Hy.
    + rewrite <- app_assoc. cbn [app]. f_equal. f_equal.
      symmetry. apply filter_both. intros y.
      now rewrite mem_snoc, negb_orb.
Qed.

Lemma filter_all (l : list string) : filter (fun _ => true) l = l.
Proof. induction l as [|y l IH]; simpl; [reflexivity | now rewrite IH]. Qed.

(** X20: a parse that succeeds registers the collected names, all of them
    and in the order of their first lines: after the names registered
    before come the normalized second tokens of the lines of the output,
    line after line, each at the place of its first occurrence. *)
Theorem parseComposeOutput_registers_collected_names
    (context context' : Context) (output : string) (w w' : World E) :
  compose_error context = Some output ->
  parseComposeOutput E context w = Ret context' w' ->
  registry_names context'
  = registry_names context
      ++ first_occurrences
           (names_in_line_order (os_path_basename (os_getcwd E w) ++ "_") output).
Proof.
  intros Herr H.
  apply parseComposeOutput_Ret_inv in H as (output' & new & Herr' & Hreg & Hnew).
  rewrite Herr in Herr'. injection Herr' as <-.
  unfold registry_names. rewrite Hreg, map_app, Hnew. f_equal.
  unfold collectContainerNames, names_in_line_order.
  rewrite fold_addContainerName_in_line_order. cbn [app PyStr.mem existsb negb].
  apply filter_all.
Qed.

Lemma docker_inspect_succeeds (format name stdout stderr : string) (w w1 : World E) :
  run_command E ["docker"; "inspect"; "--format"; format; name] w = (stdout, stderr, 0%Z, w1) ->
  docker_inspect E format name w = Ret stdout w1.
Proof. intros H. unfold docker_inspect, bind, cli_call. now rewrite H. Qed.

Lemma first_cons {A : Type} (x : A) (l : list A) (w : World E) :
  first (x :: l) w = Ret x w.
Proof. reflexivity. Qed.

(** X10: a container without the compose service label cannot be
    registered: when the three inspections succeed and no label starts with
    com.docker.compose.service: the inspection raises IndexError. *)
Theorem inspectContainer_without_service_label
    (name : string) (w w1 w2 w3 : World E)
    (out1 out2 out3 err1 err2 err3 line1 line2 line3 : string)
    (rest1 rest2 rest3 : list string) :
  run_command E ["docker"; "inspect"; "--format"; "{{ .NetworkSettings.IPAddress }}"; name] w
  = (out1, err1, 0%Z, w1) ->
  run_command E ["docker"; "inspect"; "--format"; "{{ .Config.Env }}"; name] w1
  = (out2, err2, 0%Z, w2) ->
  run_command E ["docker"; "inspect"; "--format"; "{{ .Config.Labels }}"; name] w2
  = (out3, err3, 0%Z, w3) ->
  PyStr.splitlines out1 = line1 :: rest1 ->
  PyStr.splitlines out2 = line2 :: rest2 ->
  PyStr.splitlines out3 = line3 :: rest3 ->
  Forall (fun label => PyStr.startswith "com.docker.compose.service:" label = false)
    (PyStr.split (PyStr.slice_to_last 4 line3)) ->
  inspectContainer E name w = Raise IndexError.
Proof.
  intros H1 H2 H3 L1 L2 L3 Hlabels.
  assert (Hfilter : filter (PyStr.startswith "com.docker.compose.service:")
                      (PyStr.split (PyStr.slice_to_last 4 line3)) = []).
  { induction Hlabels as [|label labels Hlabel _ IH]; cbn [filter]; [reflexivity |].
    now rewrite Hlabel. }
  unfold inspectContainer.
  erewrite bind_Ret by (eapply docker_inspect_succeeds; exact H1). rewrite L1.
  erewrite bind_Ret by apply first_cons.
  erewrite bind_Ret by (eapply docker_inspect_succeeds; exact H2). rewrite L2.
  erewrite bind_Ret by apply first_cons.
  erewrite bind_Ret by (eapply docker_inspect_succeeds; exact H3). rewrite L3.
  erewrite bind_Ret by apply first_cons.
  rewrite Hfilter. reflexivity.
Qed.

End ParseMore.

Lemma parseComposeOutput_no_names_witness :
  parseComposeOutput Sim.E (mkContext (Some "done") None) 0%nat
  = Ret (mkContext (Some "done") (Some [])) 0%nat.
Proof.
  apply (@parseComposeOutput_no_names Sim.E (mkContext (Some "done") None) "done" 0%nat).
  - reflexivity.
  - repeat constructor.
Defined.

Lemma parsed_records_hold_tokens_witness :
  exists new,
    registry Sim.parsed = registry Sim.session ++ new
    /\ Forall (fun c =>
                 Forall is_token (envFromInspect c)
                 /\ all_chars (fun ch => negb (PyStr.isspace ch)) (composeService c) = true)
         new.
Proof.
  apply (@parsed_records_hold_tokens Sim.E Sim.session Sim.parsed 0%nat 0%nat).
  reflexivity.
Defined.

Lemma parseComposeOutput_inspect_fails_witness :
  parseComposeOutput Sim.E_down Sim.session 0%nat
  = Raise (CommandFailed
             ["docker"; "inspect"; "--format"; "{{ .NetworkSettings.IPAddress }}"; "net_vp0_1"]
             1).
Proof.
  apply (@parseComposeOutput_inspect_fails Sim.E_down Sim.session Sim.compose_output
           "net_vp0_1" ["net_vp1_1"; "net_membersrvc_1"]
           (CommandFailed
              ["docker"; "inspect"; "--format"; "{{ .NetworkSettings.IPAddress }}";
               "net_vp0_1"] 1) 0%nat).
  - reflexivity.
  - reflexivity.
  - reflexivity.
Defined.

Lemma parseComposeOutput_registers_collected_names_witness :
  registry_names Sim.parsed
  = registry_names Sim.session
      ++ first_occurrences
           (names_in_line_order
              (os_path_basename (os_getcwd Sim.E 0%nat) ++ "_") Sim.compose_output).
Proof.
  apply (@parseComposeOutput_registers_collected_names Sim.E Sim.session Sim.parsed
           Sim.compose_output 0%nat 0%nat).
  - reflexivity.
  - reflexivity.
Defined.

Lemma inspectContainer_without_service_label_witness :
  inspectContainer Sim.E_unlabelled "net_db_1" 0%nat = Raise IndexError.
Proof.
  apply (@inspectContainer_without_service_label Sim.E_unlabelled "net_db_1"
           0%nat 0%nat 0%nat 0%nat
           ("172.17.0.2" ++ Sim.nl)%string
           ("[CORE_PEER_ID=net_db_1 CORE_PEER_IDENTITY=x PATH=/bin]" ++ Sim.nl)%string
           ("map[com.example.role:db]" ++ Sim.nl)%string
           "" "" ""
           "172.17.0.2" "[CORE_PEER_ID=net_db_1 CORE_PEER_IDENTITY=x PATH=/bin]"
           "map[com.example.role:db]" [] [] []).
  - reflexivity.
  - reflexivity.
  - reflexivity.
  - reflexivity.
  - reflexivity.
  - reflexivity.
  - repeat constructor.
Defined.

(** ** Readiness and convergence, further *)

Section ReadinessMore.

Variable E : Environment.
Variable CORE_REST_PORT : Z.
Variable buildUrl : Context -> string -> string -> string.

Lemma socket_pattern_contains (line : string) :
  Re.search socket_pattern line
  = PyStr.contains "ESTABLISHED" line || PyStr.contains "LISTEN" line.
Proof.
  unfold socket_pattern. now rewrite ReFacts.search_alt, !ReFacts.search_lit.
Qed.

Lemma existsb_ext_strings (f g : string -> bool) (l : list string) :
  (forall x, f x = g x) -> existsb f l = existsb g l.
Proof. intros H. induction l as [|x l IH]; simpl; [reflexivity |]. now rewrite H, IH. Qed.

(** X11: the REST port is probed only when it has to be: for a container
    that is not a peer, or whose netstat output shows no ESTABLISHED or
    LISTEN socket, the check runs netstat alone and its answer is whether
    a line shows such a socket. *)
Theorem containerIsInitialized_netstat_only
    (container : ContainerData) (w w1 : World E) (stdout stderr : string) (code : Z) :
  run_command E ["docker"; "exec"; containerName container; "netstat"; "-atun"] w
  = (stdout, stderr, code, w1) ->
  containerIsPeer container = false
  \/ existsb (fun line => PyStr.contains "ESTABLISHED" line || PyStr.contains "LISTEN" line)
       (PyStr.splitlines stdout) = false ->
  containerIsInitialized E CORE_REST_PORT container w
  = Ret (existsb (fun line => PyStr.contains "ESTABLISHED" line
                              || PyStr.contains "LISTEN" line)
           (PyStr.splitlines stdout)) w1.
Proof.
  intros Hnetstat Hskip.
  unfold containerIsInitialized, tcpPortsAreReady, getContainerNetstatOutput,
    restPortRespondsIfContainerIsPeer, bind, cli_call, ret.
  rewrite Hnetstat. cbn [andb].
  rewrite (existsb_ext_strings _ _ (PyStr.splitlines stdout) socket_pattern_contains).
  destruct Hskip as [Hpeer | Hsock].
  - rewrite Hpeer. destruct (existsb _ _); reflexivity.
  - rewrite Hsock. reflexivity.
Qed.

Lemma getPeerContainers_none (containers : list ContainerData) :
  Forall (fun c => containerIsPeer c = false) containers ->
  getPeerContainers containers = [].
Proof.
  unfold getPeerContainers. induction 1 as [|c l Hc _ IH]; simpl; [reflexivity |].
  now rewrite Hc.
Qed.

(** X12: without a peer among the containers there is nothing to wait for:
    the peers are ready at once, for any deadline, and no request is sent
    (the world is as it was). *)
Theorem peersAreReadyByTimestamp_no_peers
    (fuel : nat) (context : Context) (containers : list ContainerData)
    (timeoutTimestamp : Q) (w : World E) :
  Forall (fun c => containerIsPeer c = false) containers ->
  peersAreReadyByTimestamp E buildUrl fuel context containers timeoutTimestamp w
  = Ret true w.
Proof.
  intros H. unfold peersAreReadyByTimestamp.
  now rewrite getPeerContainers_none.
Qed.

(** X13: containers that are not peers do not count: the peers are polled,
    and their number expected, as if a container that is not a peer were not
    in the registry. *)
Theorem peersAreReadyByTimestamp_skips_other_containers
    (fuel : nat) (context : Context) (before after : list ContainerData)
    (container : ContainerData) (timeoutTimestamp : Q) (w : World E) :
  containerIsPeer container = false ->
  peersAreReadyByTimestamp E buildUrl fuel context (before ++ container :: after)
    timeoutTimestamp w
  = peersAreReadyByTimestamp E buildUrl fuel context (before ++ after) timeoutTimestamp w.
Proof.
  intros H. unfold peersAreReadyByTimestamp, getPeerContainers.
  rewrite !filter_app. cbn [filter]. now rewrite H.
Qed.

(** X14: the peers value of a 200 answer is measured with len: null counts
    as no answer (not ready), a list, an object or a string is ready when
    its length is the number of expected peers, a number or a boolean
    raises TypeError. *)
Theorem peerIsReady_by_kind_of_peers_value
    (context : Context) (thisPeer : ContainerData) (allPeers : list ContainerData)
    (w w' : World E) (response : Response) (peers : JSON) :
  requests_get E (buildUrl context (ipAddress thisPeer) "/network/peers") w = (response, w') ->
  status_code response = 200%Z ->
  json_field "peers" (json response) = Some peers ->
  peerIsReady E buildUrl context thisPeer allPeers w
  = match peers with
    | JNull => Ret false w'
    | JArr l => Ret (Nat.eqb (length allPeers) (length l)) w'
    | JObj fields => Ret (Nat.eqb (length allPeers) (length fields)) w'
    | JStr s => Ret (Nat.eqb (length allPeers) (String.length s)) w'
    | JNum _ | JBool _ => Raise TypeError
    end.
Proof.
  intros Hget H200 Hfield.
  unfold peerIsReady, bind, getConnectedPeersFromPeer, bind, lift.
  rewrite Hget, H200. cbn [Z.eqb negb Pos.eqb].
  unfold getAttributeFromJSON. unfold json_field in Hfield.
  destruct (json response) as [| | | | |fields]; try discriminate Hfield.
  rewrite Hfield. destruct peers; reflexivity.
Qed.

End ReadinessMore.

Lemma containerIsInitialized_netstat_only_witness :
  containerIsInitialized Sim.E 7050
    (mkContainerData "net_membersrvc_1" "172.17.0.2" [] "membersrvc") 0%nat
  = Ret true 0%nat.
Proof.
  exact (@containerIsInitialized_netstat_only Sim.E 7050
           (mkContainerData "net_membersrvc_1" "172.17.0.2" [] "membersrvc") 0%nat 0%nat
           ("Proto Local Address Foreign Address State" ++ Sim.nl ++
            "tcp 0 0 0.0.0.0:7050 0.0.0.0:* LISTEN" ++ Sim.nl)%string "" 0%Z
           eq_refl (or_introl eq_refl)).
Defined.

Lemma peersAreReadyByTimestamp_no_peers_witness :
  peersAreReadyByTimestamp Sim.E Sim.url 0 Sim.parsed
    [mkContainerData "net_membersrvc_1" "172.17.0.2" [] "membersrvc"] 0 0%nat
  = Ret true 0%nat.
Proof.
  apply (@peersAreReadyByTimestamp_no_peers Sim.E Sim.url 0 Sim.parsed
           [mkContainerData "net_membersrvc_1" "172.17.0.2" [] "membersrvc"] 0 0%nat).
  repeat constructor.
Defined.

Lemma peersAreReadyByTimestamp_skips_other_containers_witness :
  peersAreReadyByTimestamp Sim.E Sim.url 3 Sim.parsed
    ([mkContainerData "net_vp0_1" "172.17.0.2" [] "vp0"]
       ++ mkContainerData "net_membersrvc_1" "172.17.0.2" [] "membersrvc"
       :: [mkContainerData "net_vp1_1" "172.17.0.2" [] "vp1"]) 5 0%nat
  = peersAreReadyByTimestamp Sim.E Sim.url 3 Sim.parsed
      ([mkContainerData "net_vp0_1" "172.17.0.2" [] "vp0"]
         ++ [mkContainerData "net_vp1_1" "172.17.0.2" [] "vp1"]) 5 0%nat.
Proof.
  apply (@peersAreReadyByTimestamp_skips_other_containers Sim.E Sim.url 3 Sim.parsed
           [mkContainerData "net_vp0_1" "172.17.0.2" [] "vp0"]
           [mkContainerData "net_vp1_1" "172.17.0.2" [] "vp1"]
           (mkContainerData "net_membersrvc_1" "172.17.0.2" [] "membersrvc") 5 0%nat).
  reflexivity.
Defined.

Lemma peerIsReady_by_kind_of_peers_value_witness :
  peerIsReady Sim.E Sim.url Sim.parsed (mkContainerData "net_vp0_1" "172.17.0.2" [] "vp0")
    (getPeerContainers (registry Sim.parsed)) 0%nat
  = Ret true 0%nat.
Proof.
  exact (@peerIsReady_by_kind_of_peers_value Sim.E Sim.url Sim.parsed
           (mkContainerData "net_vp0_1" "172.17.0.2" [] "vp0")
           (getPeerContainers (registry Sim.parsed)) 0%nat 0%nat
           (mkResponse 200 (JObj [("peers", JArr [JObj []; JObj []])]))
           (JArr [JObj []; JObj []]) eq_refl eq_refl eq_refl).
Defined.

(** ** The deadline, further *)

Section DeadlineMore.

Variable E : Environment.
Variable CORE_REST_PORT : Z.
Variable buildUrl : Context -> string -> string -> string.

Lemma poll_false_after_deadline (check : M (World E) bool) (deadline : Q) (fuel : nat) :
  forall w w', poll E fuel check deadline w = Ret false w' ->
               (deadline < time_time E w')%Q.
Proof.
  induction fuel as [|fuel IH]; intros w w' H; [discriminate H |].
  rewrite poll_step in H.
  destruct (check w) as [[|] w1| |]; try discriminate H.
  destruct (Qle_bool (time_time E w1) deadline) eqn:Hle; [eauto |].
  injection H as <-. apply Qnot_le_lt. intros Hq.
  apply Qle_bool_iff in Hq. congruence.
Qed.

Lemma for_all_checks_false_after_deadline {A : Type} (check : A -> M (World E) bool)
    (deadline : Q) (fuel : nat) (l : list A) :
  forall w w',
    for_all_checks E (fun x => poll E fuel (check x) deadline) l w = Ret false w' ->
    (deadline < time_time E w')%Q.
Proof.
  induction l as [|x l IH]; intros w w' H; simpl in H; [discriminate H |].
  bind_inv H. destruct a.
  - eauto.
  - injection H as <-. eapply poll_false_after_deadline; eauto.
Qed.

(** X15: False is never an early answer: when the function returns False,
    the clock has passed the deadline, the sum of the time of entry and the
    timeout as the program computed it. *)
Theorem allContainersAreReadyWithinTimeout_false_after_deadline
    (fuel : nat) (context : Context) (containers : list ContainerData)
    (timeout : Q) (w w' : World E) :
  compose_containers context = Some containers ->
  allContainersAreReadyWithinTimeout E CORE_REST_PORT buildUrl fuel context timeout w
  = Ret false w' ->
  exists deadline,
    float_add E (time_time E w) timeout = inr deadline
    /\ (deadline < time_time E w')%Q.
Proof.
  intros Hreg Hrun.
  destruct (allContainersAreReadyWithinTimeout_Ret_inv _ _ _ _ _ _ _ Hrun)
    as (containers' & deadline & formattedTime & Hreg' & Hadd & Hfmt).
  rewrite Hreg in Hreg'. injection Hreg' as <-.
  exists deadline. split; [exact Hadd |].
  erewrite allContainersAreReadyWithinTimeout_polls in Hrun by eassumption.
  unfold bind in Hrun.
  destruct (for_all_checks E _ containers w) as [[|] w1| |] eqn:Hc; try discriminate.
  - revert Hrun. apply for_all_checks_false_after_deadline
      with (check := fun peer =>
                       peerIsReady E buildUrl context peer (getPeerContainers containers)).
  - injection Hrun as <-.
    eapply for_all_checks_false_after_deadline
      with (check := containerIsInitialized E CORE_REST_PORT). exact Hc.
Qed.

Lemma for_all_checks_first_evaluation {A : Type} (check : A -> M (World E) bool)
    (deadline : Q) (fuel : nat) (l : list A) :
  forall w w',
    for_all_checks E check l w = Ret true w' ->
    for_all_checks E (fun x => poll E (S fuel) (check x) deadline) l w = Ret true w'.
Proof.
  induction l as [|x l IH]; intros w w' H; cbn [for_all_checks] in *; [exact H |].
  bind_inv H. destruct a; [| discriminate H].
  unfold bind. rewrite (@poll_first_evaluation E (check x) deadline fuel w w0 H0). auto.
Qed.

(** X16: what is ready at first look is ready whatever the deadline, a
    deadline already past included: when the deadline can be computed and
    formatted, and each container check, then each peer check, holds at its
    first evaluation, the function returns True without a sleep. *)
Theorem allContainersAreReadyWithinTimeout_ready_at_first_look
    (fuel : nat) (context : Context) (containers : list ContainerData)
    (timeout deadline : Q) (formattedTime : string) (w w1 w2 : World E) :
  compose_containers context = Some containers ->
  float_add E (time_time E w) timeout = inr deadline ->
  strftime_localtime E "%X" deadline = inr formattedTime ->
  for_all_checks E (containerIsInitialized E CORE_REST_PORT) containers w = Ret true w1 ->
  for_all_checks E
    (fun peer => peerIsReady E buildUrl context peer (getPeerContainers containers))
    (getPeerContainers containers) w1 = Ret true w2 ->
  allContainersAreReadyWithinTimeout E CORE_REST_PORT buildUrl (S fuel) context timeout w
  = Ret true w2.
Proof.
  intros Hreg Hadd Hfmt Hc Hp.
  erewrite allContainersAreReadyWithinTimeout_polls by eassumption.
  unfold bind.
  rewrite (@for_all_checks_first_evaluation _ (containerIsInitialized E CORE_REST_PORT)
             deadline fuel containers w w1 Hc).
  now apply for_all_checks_first_evaluation
    with (check := fun peer =>
                     peerIsReady E buildUrl context peer (getPeerContainers containers)).
Qed.

Lemma for_all_checks_stops (A : Type) (check : A -> M (World E) bool)
    (before after : list A) (x : A) :
  forall w w1 w2,
    for_all_checks E check before w = Ret true w1 ->
    check x w1 = Ret false w2 ->
    for_all_checks E check (before ++ x :: after) w = Ret false w2.
Proof.
  induction before as [|y before IH]; intros w w1 w2 Hb Hx; simpl in *.
  - injection Hb as <-. unfold bind. now rewrite Hx.
  - bind_inv Hb. destruct a; [| discriminate Hb].
    unfold bind. rewrite Hb0. eauto.
Qed.

(** X17: the first container that is not initialized by the deadline ends
    the wait: once the deadline is computed and formatted, the containers
    after it are not checked and no peer is polled, the answer is False in
    the world that poll left. *)
Theorem allContainersAreReadyWithinTimeout_stops_at_first_failure
    (fuel : nat) (context : Context) (before after : list ContainerData)
    (container : ContainerData) (timeout deadline : Q) (formattedTime : string)
    (w w1 w2 : World E) :
  compose_containers context = Some (before ++ container :: after) ->
  float_add E (time_time E w) timeout = inr deadline ->
  strftime_localtime E "%X" deadline = inr formattedTime ->
  for_all_checks E
    (fun c => containerIsInitializedByTimestamp E CORE_REST_PORT fuel c deadline)
    before w = Ret true w1 ->
  containerIsInitializedByTimestamp E CORE_REST_PORT fuel container deadline w1
  = Ret false w2 ->
  allContainersAreReadyWithinTimeout E CORE_REST_PORT buildUrl fuel context timeout w
  = Ret false w2.
Proof.
  intros Hreg Hadd Hfmt Hb Hx.
  unfold allContainersAreReadyWithinTimeout, bind, observe, from_sum.
  rewrite Hadd, Hfmt, Hreg. unfold ret at 1.
  now rewrite (@for_all_checks_stops _
                 (fun c => containerIsInitializedByTimestamp E CORE_REST_PORT fuel c deadline)
                 before after container w w1 w2 Hb Hx).
Qed.

(** X21: a deadline that cannot be formatted ends the call before anything
    is checked: when the local time of the computed deadline cannot be
    formatted for the log, the function raises that error; no container
    is looked at, whatever the registry. *)
Theorem allContainersAreReadyWithinTimeout_raises_on_unformattable_deadline
    (fuel : nat) (context : Context) (timeout deadline : Q) (e : exn) (w : World E) :
  float_add E (time_time E w) timeout = inr deadline ->
  strftime_localtime E "%X" deadline = inl e ->
  allContainersAreReadyWithinTimeout E CORE_REST_PORT buildUrl fuel context timeout w
  = Raise e.
Proof.
  intros Hadd Hfmt.
  unfold allContainersAreReadyWithinTimeout, bind, observe, from_sum.
  now rewrite Hadd, Hfmt.
Qed.

(** X18: an error of the peer-list query is not waited out: the
    convergence check does not catch it and the poll of the peer raises it at
    once, without a sleep, a second request or a not-ready answer; such is
    the error for a 200 answer that lacks the peers field. *)
Theorem peerIsReadyByTimestamp_raises_query_error
    (fuel : nat) (context : Context) (peer : ContainerData) (peers : list ContainerData)
    (timeoutTimestamp : Q) (w : World E) (e : exn) :
  getConnectedPeersFromPeer E buildUrl context peer w = Raise e ->
  peerIsReady E buildUrl context peer peers w = Raise e
  /\ peerIsReadyByTimestamp E buildUrl (S fuel) context peer peers timeoutTimestamp w
     = Raise e.
Proof.
  intros Hget. cbn [peerIsReadyByTimestamp].
  unfold peerIsNotReady, peerIsReady, bind. rewrite Hget. split; reflexivity.
Qed.

Hypothesis clock : clock_advances E.

Lemma poll_never_ready (check : M (World E) bool) (deadline : Q) (fuel : nat) :
  (forall w0, exists w1, check w0 = Ret false w1) ->
  forall w, poll E fuel check deadline w <> OutOfFuel ->
            exists w', poll E fuel check deadline w = Ret false w'.
Proof.
  intros Hnever. induction fuel as [|fuel IH]; intros w Hfuel.
  - exfalso. now apply Hfuel.
  - rewrite poll_step in *. destruct (Hnever w) as [w1 Hc]. rewrite Hc in *.
    destruct (Qle_bool (time_time E w1) deadline); eauto.
Qed.

(** X19: the timeout does fire: with the clock advancing and a deadline
    that is computed and formatted, when the first container of the registry
    never gets initialized, the function returns False, after the
    deadline. *)
Theorem allContainersAreReadyWithinTimeout_times_out
    (fuel : nat) (context : Context) (container : ContainerData)
    (others : list ContainerData) (timeout deadline : Q) (formattedTime : string)
    (w : World E) :
  compose_containers context = Some (container :: others) ->
  float_add E (time_time E w) timeout = inr deadline ->
  strftime_localtime E "%X" deadline = inr formattedTime ->
  (forall w0, exists w1,
        containerIsInitialized E CORE_REST_PORT container w0 = Ret false w1) ->
  (deadline - time_time E w < inject_Z (Z.of_nat fuel))%Q ->
  exists w',
    allContainersAreReadyWithinTimeout E CORE_REST_PORT buildUrl (S fuel) context timeout w
    = Ret false w'
    /\ (deadline < time_time E w')%Q.
Proof.
  intros Hreg Hadd Hfmt Hnever Hfuel.
  assert (Hpoll : exists w',
             poll E (S fuel) (containerIsInitialized E CORE_REST_PORT container)
               deadline w = Ret false w').
  { apply poll_never_ready; [exact Hnever |].
    apply poll_terminates.
    - intros w0. now apply containerIsInitialized_total.
    - intros w0 b w1. now apply containerIsInitialized_clock.
    - intros w0. apply (time_sleep_clock clock).
    - exact Hfuel. }
  destruct Hpoll as [w' Hpoll]. exists w'.
  assert (Hrun : allContainersAreReadyWithinTimeout E CORE_REST_PORT buildUrl (S fuel)
                   context timeout w = Ret false w').
  { erewrite allContainersAreReadyWithinTimeout_polls by eassumption.
    cbn [for_all_checks]. unfold bind. now rewrite Hpoll. }
  split; [exact Hrun |].
  eapply poll_false_after_deadline. exact Hpoll.
Qed.

End DeadlineMore.

Lemma allContainersAreReadyWithinTimeout_false_after_deadline_witness :
  exists deadline,
    float_add Sim.E_never (time_time Sim.E_never 0%nat) 2 = inr deadline
    /\ (deadline < time_time Sim.E_never 3%nat)%Q.
Proof.
  apply (@allContainersAreReadyWithinTimeout_false_after_deadline Sim.E_never 7050 Sim.url
           4 Sim.registered [Sim.vp0; Sim.membersrvc] 2 0%nat 3%nat).
  - reflexivity.
  - reflexivity.
Defined.

Lemma allContainersAreReadyWithinTimeout_ready_at_first_look_witness :
  allContainersAreReadyWithinTimeout
    (Sim.env (Sim.docker 0) (Sim.peers_endpoint 0 1) "/opt/gopath/src/net") 7050 Sim.url 1
    Sim.registered (-1) 0%nat
  = Ret true 0%nat.
Proof.
  apply (@allContainersAreReadyWithinTimeout_ready_at_first_look
           (Sim.env (Sim.docker 0) (Sim.peers_endpoint 0 1) "/opt/gopath/src/net")
           7050 Sim.url 0 Sim.registered [Sim.vp0; Sim.membersrvc] (-1) (0 + -1)
           "12:00:00" 0%nat 0%nat 0%nat).
  - reflexivity.
  - reflexivity.
  - reflexivity.
  - reflexivity.
  - reflexivity.
Defined.

Lemma allContainersAreReadyWithinTimeout_stops_at_first_failure_witness :
  allContainersAreReadyWithinTimeout Sim.E_never 7050 Sim.url 4 Sim.registered 2 0%nat
  = Ret false 3%nat.
Proof.
  apply (@allContainersAreReadyWithinTimeout_stops_at_first_failure Sim.E_never 7050 Sim.url
           4 Sim.registered [] [Sim.membersrvc] Sim.vp0 2 (0 + 2) "12:00:00"
           0%nat 0%nat 3%nat).
  - reflexivity.
  - reflexivity.
  - reflexivity.
  - reflexivity.
  - reflexivity.
Defined.

Lemma allContainersAreReadyWithinTimeout_raises_on_unformattable_deadline_witness :
  allContainersAreReadyWithinTimeout Sim.E 7050 Sim.url 4 Sim.registered
    (inject_Z (10 ^ 18)) 0%nat
  = Raise OverflowError.
Proof.
  apply (@allContainersAreReadyWithinTimeout_raises_on_unformattable_deadline Sim.E 7050
           Sim.url 4 Sim.registered (inject_Z (10 ^ 18)) (0 + inject_Z (10 ^ 18))
           OverflowError 0%nat).
  - reflexivity.
  - reflexivity.
Defined.

Lemma peerIsReadyByTimestamp_raises_query_error_witness :
  peerIsReady Sim.E_no_peers_field Sim.url Sim.registered Sim.vp0 [Sim.vp0] 0%nat
  = Raise (AssertionError "There should be a peer json attribute")
  /\ peerIsReadyByTimestamp Sim.E_no_peers_field Sim.url 1 Sim.registered Sim.vp0 [Sim.vp0]
       5 0%nat
     = Raise (AssertionError "There should be a peer json attribute").
Proof.
  apply (@peerIsReadyByTimestamp_raises_query_error Sim.E_no_peers_field Sim.url
           0 Sim.registered Sim.vp0 [Sim.vp0] 5 0%nat
           (AssertionError "There should be a peer json attribute")).
  reflexivity.
Defined.

Lemma allContainersAreReadyWithinTimeout_times_out_witness :
  exists w',
    allContainersAreReadyWithinTimeout Sim.E_never 7050 Sim.url 4 Sim.registered 2 0%nat
    = Ret false w'
    /\ (0 + 2 < time_time Sim.E_never w')%Q.
Proof.
  apply (@allContainersAreReadyWithinTimeout_times_out Sim.E_never 7050 Sim.url
           (Sim_clock_advances _ _ _) 3 Sim.registered Sim.vp0 [Sim.membersrvc] 2 (0 + 2)
           "12:00:00" 0%nat).
  - reflexivity.
  - reflexivity.
  - reflexivity.
  - intros w0. exists w0. reflexivity.
  - reflexivity.
Defined.
